(** * MT5 price bridge (metaapi.js): the ingestion pipeline and its query surface

    A shallow embedding of [src/metaapi.js]: the socket 'data' handler that
    reassembles newline-delimited JSON messages, [processIncomingData], the
    in-memory [dataStore] and the REST read handlers.

    Conventions of the embedding.
    - A JavaScript string is the list of its UTF-16 code units.
    - A Buffer is a list of bytes.
    - The objects the program uses as dictionaries ([livePrices], [ohlcvData]
      and the per-symbol timeframe objects) are finite maps holding their own
      properties; a parsed message is a record of its own properties in
      order.  What every object inherits from [Object.prototype], the
      [__proto__] accessor included, is not part of the model: the maps
      are what the objects hold as long as no message made the program
      write through a name that objects inherit.  [clean] says so of the
      lines received; the statements that need it are made of the worlds
      reached by clean lines.
    - Statements that can throw live in a state-and-exception monad: the
      mutations made before a throw stay in the state, as they do in the
      program.
    - What the JavaScript runtime provides and the program only calls
      (its numbers, [JSON.parse], [toUpperCase], the clock) is an interface,
      [Runtime]; the general theorems hold for every implementation of
      it. *)

From Stdlib Require Import ZArith NArith Strings.Ascii Strings.String.
From Stdlib Require Import Strings.Byte Numbers.DecimalString.
From stdpp Require Import base option list strings gmap fin_maps.

Local Open Scope N_scope.

(** ** Strings *)

Abbreviation jsstring := (list N).

(** The code units of an ASCII literal. *)
Definition lit (s : string) : jsstring :=
  map N_of_ascii (list_ascii_of_string s).

Arguments lit : simpl never.

Definition LF : N := 10.

(** [String.prototype.split] with a separator of one code unit: the pieces
    between the separators, always at least one piece. *)
Fixpoint String_split (sep : N) (s : jsstring) : list jsstring :=
  match s with
  | [] => [[]]
  | c :: s' =>
      if N.eqb c sep then [] :: String_split sep s'
      else match String_split sep s' with
           | p :: ps => (c :: p) :: ps
           | [] => [[c]]
           end
  end.

(** [Array.prototype.pop]: the array without its last element, and that
    element; [None] stands for the [undefined] an empty array gives. *)
Definition pop {A} (l : list A) : list A * option A :=
  (removelast l, last l).

(** WhiteSpace and LineTerminator code units of ECMAScript, the ones
    [String.prototype.trim] removes. *)
Definition is_white_space (c : N) : bool :=
  (c =? 0x09) || (c =? 0x0A) || (c =? 0x0B) || (c =? 0x0C) || (c =? 0x0D)
  || (c =? 0x20) || (c =? 0xA0) || (c =? 0x1680)
  || ((0x2000 <=? c) && (c <=? 0x200A))
  || (c =? 0x2028) || (c =? 0x2029) || (c =? 0x202F) || (c =? 0x205F)
  || (c =? 0x3000) || (c =? 0xFEFF).

Fixpoint trimStart (s : jsstring) : jsstring :=
  match s with
  | c :: s' => if is_white_space c then trimStart s' else s
  | [] => []
  end.

Definition trimEnd (s : jsstring) : jsstring := rev (trimStart (rev s)).

Definition trim (s : jsstring) : jsstring := trimEnd (trimStart s).

(** ** Buffers: [Buffer.prototype.toString()], UTF-8 decoding

    The decoder of the Encoding standard: an ill-formed or truncated
    sequence becomes U+FFFD, and the decoder keeps no state between two
    calls. *)

Record utf8_state := Utf8State {
  code_point : N;
  bytes_seen : N;
  bytes_needed : N;
  lower_boundary : N;
  upper_boundary : N
}.

Definition utf8_start : utf8_state := Utf8State 0 0 0 0x80 0xBF.

Definition REPLACEMENT : N := 0xFFFD.

(** A byte met when no sequence is open. *)
Definition utf8_lead (b : N) : list N * utf8_state :=
  if b <=? 0x7F then ([b], utf8_start)
  else if (0xC2 <=? b) && (b <=? 0xDF)
  then ([], Utf8State (N.land b 0x1F) 0 1 0x80 0xBF)
  else if (0xE0 <=? b) && (b <=? 0xEF)
  then ([], Utf8State (N.land b 0x0F) 0 2
              (if b =? 0xE0 then 0xA0 else 0x80)
              (if b =? 0xED then 0x9F else 0xBF))
  else if (0xF0 <=? b) && (b <=? 0xF4)
  then ([], Utf8State (N.land b 0x07) 0 3
              (if b =? 0xF0 then 0x90 else 0x80)
              (if b =? 0xF4 then 0x8F else 0xBF))
  else ([REPLACEMENT], utf8_start).

Definition utf8_step (st : utf8_state) (b : N) : list N * utf8_state :=
  if bytes_needed st =? 0 then utf8_lead b
  else if (b <? lower_boundary st) || (upper_boundary st <? b)
  then let '(out, st') := utf8_lead b in (REPLACEMENT :: out, st')
  else
    let cp := N.lor (N.shiftl (code_point st) 6) (N.land b 0x3F) in
    if bytes_seen st + 1 =? bytes_needed st then ([cp], utf8_start)
    else ([], Utf8State cp (bytes_seen st + 1) (bytes_needed st) 0x80 0xBF).

(** The code points of a byte sequence, decoded from state [st]. *)
Fixpoint utf8_decode (st : utf8_state) (bytes : list byte) : list N :=
  match bytes with
  | [] => if bytes_needed st =? 0 then [] else [REPLACEMENT]
  | b :: bytes' =>
      let '(out, st') := utf8_step st (Byte.to_N b) in
      out ++ utf8_decode st' bytes'
  end.

(** A code point as UTF-16 code units. *)
Definition utf16_units (cp : N) : jsstring :=
  if cp <? 0x10000 then [cp]
  else [0xD800 + N.shiftr (cp - 0x10000) 10;
        0xDC00 + N.land (cp - 0x10000) 0x3FF].

Definition Buffer_toString (data : list byte) : jsstring :=
  flat_map utf16_units (utf8_decode utf8_start data).

(** ** Values

    What [JSON.parse] can return, and [undefined], which reading a missing
    property gives.  [number] is the runtime's Number type. *)

#[local] Set Warnings "-register-all".

Inductive value (number : Type) : Type :=
| Undefined
| Null
| Bool (b : bool)
| Num (n : number)
| Str (s : jsstring)
| Arr (elements : list (value number))
| Obj (properties : list (jsstring * value number)).

Arguments Undefined {number}.
Arguments Null {number}.
Arguments Bool {number} b.
Arguments Num {number} n.
Arguments Str {number} s.
Arguments Arr {number} elements.
Arguments Obj {number} properties.

(** The own property [k] of a record. *)
Fixpoint own {number} (props : list (jsstring * value number)) (k : jsstring)
  : option (value number) :=
  match props with
  | [] => None
  | (k', v) :: rest => if decide (k' = k) then Some v else own rest k
  end.

(** Writing the own property [k]: in place when the record has it, as a new
    last property otherwise. *)
Fixpoint put {number} (props : list (jsstring * value number)) (k : jsstring)
    (v : value number) : list (jsstring * value number) :=
  match props with
  | [] => [(k, v)]
  | (k', v') :: rest =>
      if decide (k' = k) then (k, v) :: rest else (k', v') :: put rest k v
  end.

Inductive exn := SyntaxError | TypeError.

(** How an evaluation ends: with a value, or by throwing. *)
Inductive completion (A : Type) : Type :=
| Normal (a : A)
| Throw (e : exn).

Arguments Normal {A} a.
Arguments Throw {A} e.

(** ** The runtime interface *)

Definition ascii_upper (c : N) : N :=
  if (0x61 <=? c) && (c <=? 0x7A) then c - 0x20 else c.

(** The Number type of the runtime. *)
Class Numbers := number : Type.

Class Runtime `{Numbers} := {
  (** the Number that is the length of a string or an array *)
  Number_ofNat : nat -> number;
  (** ToBoolean on a Number: false for +0, -0 and NaN *)
  Number_toBoolean : number -> bool;
  (** Number::toString *)
  Number_toString : number -> jsstring;
  (** [JSON.parse] of a string; [None] when it throws its SyntaxError *)
  JSON_parse : jsstring -> option (value number);
  (** [String.prototype.toUpperCase] *)
  toUpperCase : jsstring -> jsstring;
  toUpperCase_ascii : forall s : jsstring,
    Forall (fun c => c < 0x80) s -> toUpperCase s = map ascii_upper s;
  (** [new Date().toISOString()] at the n-th reading of the clock *)
  toISOString : nat -> jsstring
}.

Abbreviation jsvalue := (value number).

Section Conversions.
Context `{Runtime}.

(** [v.k] for the property names the program reads ([type], [symbol],
    [timeframe], [candles], [symbols], [length]): none of them is an array
    index or a method of a prototype, so a string and an array answer
    [length] only, and a number or a boolean nothing. *)
Definition GetV (v : jsvalue) (k : jsstring) : completion jsvalue :=
  match v with
  | Undefined | Null => Throw TypeError
  | Bool _ | Num _ => Normal Undefined
  | Str s =>
      Normal (if decide (k = lit "length")
              then Num (Number_ofNat (length s)) else Undefined)
  | Arr l =>
      Normal (if decide (k = lit "length")
              then Num (Number_ofNat (length l)) else Undefined)
  | Obj props => Normal (default Undefined (own props k))
  end.

(** [v.k = x] on the message record ([data.receivedAt = timestamp]): a
    record gets the property; on a primitive the assignment is lost. *)
Definition SetV (v : jsvalue) (k : jsstring) (x : jsvalue) : jsvalue :=
  match v with
  | Obj props => Obj (put props k x)
  | _ => v
  end.

Definition ToBoolean (v : jsvalue) : bool :=
  match v with
  | Undefined | Null => false
  | Bool b => b
  | Num n => Number_toBoolean n
  | Str s => negb (bool_decide (s = []))
  | Arr _ | Obj _ => true
  end.

Definition isArray (v : jsvalue) : bool :=
  match v with Arr _ => true | _ => false end.

(** ToString, which is also ToPropertyKey on these values.  An array is
    joined with commas, [null] and [undefined] elements giving the empty
    string.  A record answers what [Object.prototype.toString] does unless
    it has a [toString] property of its own: that one is not callable, and
    the [valueOf] tried next does not give a primitive, so the conversion
    throws a TypeError. *)
Fixpoint ToString (v : jsvalue) : completion jsstring :=
  match v with
  | Undefined => Normal (lit "undefined")
  | Null => Normal (lit "null")
  | Bool b => Normal (if b then lit "true" else lit "false")
  | Num n => Normal (Number_toString n)
  | Str s => Normal s
  | Arr l =>
      (fix join (l : list jsvalue) : completion jsstring :=
         match l with
         | [] => Normal []
         | x :: rest =>
             let piece :=
               match x with
               | Undefined | Null => Normal []
               | _ => ToString x
               end in
             match piece with
             | Throw e => Throw e
             | Normal p =>
                 match rest with
                 | [] => Normal p
                 | _ :: _ =>
                     match join rest with
                     | Throw e => Throw e
                     | Normal q => Normal (p ++ lit "," ++ q)
                     end
                 end
             end
         end) l
  | Obj props =>
      match own props (lit "toString") with
      | Some _ => Throw TypeError
      | None => Normal (lit "[object Object]")
      end
  end.

Definition ToPropertyKey (v : jsvalue) : completion jsstring := ToString v.

End Conversions.

(** ** The process state and the monad of statements *)

Section Program.
Context `{Runtime}.

(** [const dataStore = { livePrices: {}, ohlcvData: {}, symbolList: [] }] *)
Record DataStore := mkDataStore {
  livePrices : gmap jsstring jsvalue;
  ohlcvData : gmap jsstring (gmap jsstring jsvalue);
  symbolList : jsvalue
}.

Definition empty_store : DataStore := mkDataStore ∅ ∅ (Arr []).

Inductive console_arg :=
| shown (v : jsvalue)
| message_of (e : exn).

Inductive console_entry :=
| console_log (args : list console_arg)
| console_error (args : list console_arg).

(** The store, what was written to the console (oldest first) and the
    number of clock readings made so far. *)
Record world := mkWorld {
  dataStore : DataStore;
  console : list console_entry;
  clock : nat
}.

Definition initial_world : world := mkWorld empty_store [] 0.

Definition js (A : Type) : Type := world -> completion A * world.

#[export] Instance js_ret : MRet js := fun A a w => (Normal a, w).

#[export] Instance js_bind : MBind js := fun A B f m w =>
  match m w with
  | (Normal a, w') => f a w'
  | (Throw e, w') => (Throw e, w')
  end.

Definition throw {A} (e : exn) : js A := fun w => (Throw e, w).

Definition lift {A} (c : completion A) : js A := fun w => (c, w).

(** [try { body } catch (error) { handler(error) }] *)
Definition try_catch {A} (body : js A) (handler : exn -> js A) : js A :=
  fun w =>
    match body w with
    | (Normal a, w') => (Normal a, w')
    | (Throw e, w') => handler e w'
    end.

(** [for (const x of l) body(x)] *)
Fixpoint for_of {A} (l : list A) (body : A -> js unit) : js unit :=
  match l with
  | [] => mret tt
  | x :: rest => body x ;; for_of rest body
  end.

(** [new Date().toISOString()] *)
Definition Date_now : js jsstring := fun w =>
  (Normal (toISOString (clock w)),
   mkWorld (dataStore w) (console w) (S (clock w))).

Definition write_console (e : console_entry) : js unit := fun w =>
  (Normal tt, mkWorld (dataStore w) (console w ++ [e]) (clock w)).

Definition get_store : js DataStore := fun w => (Normal (dataStore w), w).

Definition set_store (ds : DataStore) : js unit := fun w =>
  (Normal tt, mkWorld ds (console w) (clock w)).

(** The three assignments that change the store: [livePrices[key] = v],
    [ohlcvData[ks] = tfs] and [symbolList = v]. *)
Definition assign_livePrice (key : jsstring) (v : jsvalue) (ds : DataStore)
  : DataStore :=
  mkDataStore (<[key := v]> (livePrices ds)) (ohlcvData ds) (symbolList ds).

Definition assign_symbol (ks : jsstring) (tfs : gmap jsstring jsvalue)
    (ds : DataStore) : DataStore :=
  mkDataStore (livePrices ds) (<[ks := tfs]> (ohlcvData ds)) (symbolList ds).

Definition assign_symbolList (v : jsvalue) (ds : DataStore) : DataStore :=
  mkDataStore (livePrices ds) (ohlcvData ds) v.

(** [dataStore.livePrices[key] = v] *)
Definition set_livePrice (key : jsstring) (v : jsvalue) : js unit :=
  ds ← get_store; set_store (assign_livePrice key v ds).

(** [dataStore.ohlcvData[ks]]: the timeframe object, or [undefined] *)
Definition get_symbol (ks : jsstring) : js (option (gmap jsstring jsvalue)) :=
  ds ← get_store; mret (ohlcvData ds !! ks).

(** [dataStore.ohlcvData[ks] = {}] *)
Definition set_symbol (ks : jsstring) : js unit :=
  ds ← get_store; set_store (assign_symbol ks ∅ ds).

(** [dataStore.ohlcvData[ks][kt]]; reading a property of [undefined]
    throws. *)
Definition get_series (ks kt : jsstring) : js jsvalue :=
  ds ← get_store;
  match ohlcvData ds !! ks with
  | None => throw TypeError
  | Some tfs => mret (default Undefined (tfs !! kt))
  end.

(** [dataStore.ohlcvData[ks][kt] = v]: a property of the timeframe object
    is written, the object stays the one [ohlcvData[ks]] holds. *)
Definition set_series (ks kt : jsstring) (v : jsvalue) : js unit :=
  ds ← get_store;
  match ohlcvData ds !! ks with
  | None => throw TypeError
  | Some tfs => set_store (assign_symbol ks (<[kt := v]> tfs) ds)
  end.

(** [dataStore.symbolList = v] *)
Definition set_symbolList (v : jsvalue) : js unit :=
  ds ← get_store; set_store (assign_symbolList v ds).

(** [v === 'literal'] *)
Definition is_string (v : jsvalue) (s : jsstring) : bool :=
  match v with
  | Str s' => bool_decide (s' = s)
  | _ => false
  end.

Definition text (s : string) : console_arg := shown (Str (lit s)).

(** The console entries built from template literals. *)
Definition received_candles (n s t : jsstring) : console_entry :=
  console_log
    [shown (Str (lit "Received " ++ n ++ lit " candles for "
                   ++ s ++ lit " " ++ t))].

Definition received_symbol_list (n : jsstring) : console_entry :=
  console_log
    [shown (Str (lit "Received symbol list with " ++ n ++ lit " symbols"))].

(** ** [processIncomingData] *)

Definition processIncomingData (data : jsvalue) : js unit :=
  timestamp ← Date_now;
  type ← lift (GetV data (lit "type"));
  if is_string type (lit "live_price") then
    symbol ← lift (GetV data (lit "symbol"));
    if negb (ToBoolean symbol) then
      write_console (console_error [text "Missing symbol in live price data"])
    else
      let data := SetV data (lit "receivedAt") (Str timestamp) in
      symbol ← lift (GetV data (lit "symbol"));
      key ← lift (ToPropertyKey symbol);
      set_livePrice key data
  else if is_string type (lit "ohlcv") then
    symbol ← lift (GetV data (lit "symbol"));
    timeframe ← (if ToBoolean symbol
                 then lift (GetV data (lit "timeframe"))
                 else mret Undefined);
    if negb (ToBoolean symbol) || negb (ToBoolean timeframe) then
      write_console
        (console_error [text "Missing symbol or timeframe in OHLCV data"])
    else
      ks ← lift (ToPropertyKey symbol);
      tfs ← get_symbol ks;
      (if tfs is None then set_symbol ks else mret tt);;
      kt ← lift (ToPropertyKey timeframe);
      series ← get_series ks kt;
      (if negb (ToBoolean series) then set_series ks kt (Arr [])
       else mret tt);;
      let data := SetV data (lit "receivedAt") (Str timestamp) in
      symbol ← lift (GetV data (lit "symbol"));
      ks ← lift (ToPropertyKey symbol);
      timeframe ← lift (GetV data (lit "timeframe"));
      kt ← lift (ToPropertyKey timeframe);
      candles ← lift (GetV data (lit "candles"));
      set_series ks kt candles;;
      candles ← lift (GetV data (lit "candles"));
      len ← lift (GetV candles (lit "length"));
      n ← lift (ToString len);
      s ← lift (ToString symbol);
      t ← lift (ToString timeframe);
      write_console (received_candles n s t)
  else if is_string type (lit "symbol_list") then
    symbols ← lift (GetV data (lit "symbols"));
    if isArray symbols then
      set_symbolList symbols;;
      len ← lift (GetV symbols (lit "length"));
      n ← lift (ToString len);
      write_console (received_symbol_list n)
    else mret tt
  else
    write_console (console_log [text "Unknown data type:"; shown type]).

(** ** The socket: [socket.on('data', ...)]

    [buffer] is the variable of the connection's closure; it holds a
    string, or [undefined] ([None]) if [pop] ever found nothing. *)

(** [buffer += s] *)
Definition append_buffer (buffer : option jsstring) (s : jsstring)
  : jsstring :=
  match buffer with
  | Some b => b ++ s
  | None => lit "undefined" ++ s
  end.

(** Lines 38 to 42: the complete messages of this event and the buffer
    kept for the next one. *)
Definition feed (buffer : option jsstring) (data : list byte)
  : list jsstring * option jsstring :=
  let buffer := append_buffer buffer (Buffer_toString data) in
  let messages := String_split LF buffer in
  pop messages.

(** The body of the loop over the messages. *)
Definition handle_message (message : jsstring) : js unit :=
  if bool_decide (trim message = []) then mret tt
  else
    try_catch
      (match JSON_parse message with
       | None => throw SyntaxError
       | Some jsonData => processIncomingData jsonData
       end)
      (fun error =>
         write_console
           (console_error [text "Error processing data:"; message_of error;
                           text "Raw data:"; shown (Str message)])).

Definition on_data (data : list byte) (buffer : option jsstring)
  : js (option jsstring) :=
  let '(messages, buffer) := feed buffer data in
  for_of messages handle_message;;
  mret buffer.

(** The data events of one connection, in order of arrival. *)
Fixpoint on_data_all (chunks : list (list byte)) (buffer : option jsstring)
  : js (option jsstring) :=
  match chunks with
  | [] => mret buffer
  | data :: rest => buffer ← on_data data buffer; on_data_all rest buffer
  end.

(** The messages a connection completes over a sequence of data events,
    and the buffer it ends with. *)
Fixpoint feed_all (buffer : option jsstring) (chunks : list (list byte))
  : list jsstring * option jsstring :=
  match chunks with
  | [] => ([], buffer)
  | data :: rest =>
      let '(messages, buffer) := feed buffer data in
      let '(more, buffer) := feed_all buffer rest in
      (messages ++ more, buffer)
  end.

(** ** The REST handlers that read the store *)

Inductive response (A : Type) : Type :=
| res_json (body : A)
| res_404 (error : jsstring)
| res_500.

Arguments res_json {A} body.
Arguments res_404 {A} error.
Arguments res_500 {A}.

(** [GET /api/symbols]: [count] and [symbols] *)
Definition api_symbols (ds : DataStore) : response (jsvalue * jsvalue) :=
  match GetV (symbolList ds) (lit "length") with
  | Normal count => res_json (count, symbolList ds)
  | Throw _ => res_500
  end.

(** [GET /api/price/:symbol] *)
Definition api_price (symbol : jsstring) (ds : DataStore)
  : response jsvalue :=
  let symbol := toUpperCase symbol in
  let priceData := default Undefined (livePrices ds !! symbol) in
  if negb (ToBoolean priceData) then
    res_404 (lit "No price data available for " ++ symbol)
  else res_json priceData.

(** The value of the digit [c] in radix [radix], if it is one. *)
Definition digit_value (radix : Z) (c : N) : option Z :=
  let d :=
    if (0x30 <=? c) && (c <=? 0x39) then Some (Z.of_N (c - 0x30))
    else if (0x61 <=? c) && (c <=? 0x7A) then Some (Z.of_N (c - 0x61) + 10)%Z
    else if (0x41 <=? c) && (c <=? 0x5A) then Some (Z.of_N (c - 0x41) + 10)%Z
    else None in
  match d with
  | Some d => if (d <? radix)%Z then Some d else None
  | None => None
  end.

(** The integer written by the longest prefix of digits, [acc] so far. *)
Fixpoint digits (radix : Z) (acc : option Z) (s : jsstring) : option Z :=
  match s with
  | [] => acc
  | c :: s' =>
      match digit_value radix c with
      | Some d => digits radix (Some (default 0 acc * radix + d))%Z s'
      | None => acc
      end
  end.

(** [parseInt(x)] of a string or of [undefined], without a radix: [None]
    is NaN, otherwise the integer that was read.  The result is kept
    exact; the program only negates it and hands it to [slice], which
    clamps it to the length of the array. *)
Definition parseInt (input : option jsstring) : option Z :=
  let s := trimStart (default (lit "undefined") input) in
  let '(sign, s) :=
    match s with
    | 0x2D :: r => ((-1)%Z, r)
    | 0x2B :: r => (1%Z, r)
    | _ => (1%Z, s)
    end in
  let '(radix, s) :=
    match s with
    | 0x30 :: 0x78 :: r | 0x30 :: 0x58 :: r => (16%Z, r)
    | _ => (10%Z, s)
    end in
  match digits radix None s with
  | Some z => Some (sign * z)%Z
  | None => None
  end.

(** The index [slice(start)] begins at, in a sequence of [len] elements. *)
Definition slice_start (len : nat) (start : Z) : nat :=
  if (start <? 0)%Z then Z.to_nat (Z.max (Z.of_nat len + start) 0)
  else Z.to_nat (Z.min start (Z.of_nat len)).

(** [v.slice(start)] and the [length] of the result: arrays and strings
    have the method, on anything else the call throws. *)
Definition slice (v : jsvalue) (start : Z) : completion (jsvalue * nat) :=
  match v with
  | Arr l =>
      let r := drop (slice_start (length l) start) l in
      Normal (Arr r, length r)
  | Str s =>
      let r := drop (slice_start (length s) start) s in
      Normal (Str r, length r)
  | _ => Throw TypeError
  end.

Record ohlcv_body := mkOhlcvBody {
  body_symbol : jsstring;
  body_timeframe : jsstring;
  body_count : nat;
  body_candles : jsvalue
}.

(** [GET /api/ohlcv/:symbol/:timeframe?limit=...]; [limit_query] is
    [req.query.limit], a string or absent. *)
Definition api_ohlcv (symbol timeframe : jsstring)
    (limit_query : option jsstring) (ds : DataStore) : response ohlcv_body :=
  let symbol := toUpperCase symbol in
  let limit :=
    match parseInt limit_query with
    | Some z => if (z =? 0)%Z then 100%Z else z
    | None => 100%Z
    end in
  let series :=
    match ohlcvData ds !! symbol with
    | Some tfs => default Undefined (tfs !! timeframe)
    | None => Undefined
    end in
  if negb (ToBoolean series) then
    res_404 (lit "No OHLCV data available for " ++ symbol ++ lit " on "
               ++ timeframe ++ lit " timeframe")
  else
    match slice series (- limit) with
    | Normal (candles, count) =>
        res_json (mkOhlcvBody symbol timeframe count candles)
    | Throw _ => res_500
    end.

(** [GET /api/timeframes/:symbol]; the keys come as a set, their order
    in the answer is not modelled. *)
Definition api_timeframes (symbol : jsstring) (ds : DataStore)
  : response (jsstring * gset jsstring) :=
  let symbol := toUpperCase symbol in
  match ohlcvData ds !! symbol with
  | None => res_404 (lit "No data available for " ++ symbol)
  | Some tfs => res_json (symbol, dom tfs)
  end.



(** [GET /api/prices]: [count] and [prices] *)
Definition api_prices (ds : DataStore)
  : response (nat * gmap jsstring jsvalue) :=
  res_json (size (livePrices ds), livePrices ds).

(** [POST /api/request-ohlcv] *)
Record request_body := mkRequestBody {
  request_message : jsstring;
  request_symbol : jsvalue;
  request_timeframe : jsvalue;
  requestedBars : jsvalue
}.

Inductive request_response :=
| requested (body : request_body)
| res_400 (error : jsstring)
| request_failed.

(** [bars || 100] *)
Definition bars_or_default (bars : jsvalue) : jsvalue :=
  if ToBoolean bars then bars else Num (Number_ofNat 100).

(** [body] is [req.body], what the JSON body parser left there.  The
    handler converts its fields to strings for the console and for the
    message of the answer; a conversion that throws leaves the request to
    the framework, which answers 500. *)
Definition api_request_ohlcv (body : jsvalue) : js request_response :=
  try_catch
    (symbol ← lift (GetV body (lit "symbol"));
     timeframe ← lift (GetV body (lit "timeframe"));
     bars ← lift (GetV body (lit "bars"));
     if negb (ToBoolean symbol) || negb (ToBoolean timeframe) then
       mret (res_400 (lit "Symbol and timeframe are required"))
     else
       s ← lift (ToString symbol);
       t ← lift (ToString timeframe);
       b ← lift (ToString (bars_or_default bars));
       write_console
         (console_log
            [shown (Str (lit "Request for " ++ s ++ lit " " ++ t
                           ++ lit " OHLCV data (" ++ b ++ lit " bars)"))]);;
       s ← lift (ToString symbol);
       t ← lift (ToString timeframe);
       mret (requested
               (mkRequestBody
                  (lit "Requested " ++ s ++ lit " " ++ t
                     ++ lit " data. It will be available when MT5 sends it.")
                  symbol timeframe (bars_or_default bars))))
    (fun _ => mret request_failed).

(** ** The life of a connection

    [net.createServer] calls its callback for each client: it writes to
    the console and starts with an empty buffer; then come the events of
    the socket. *)
Inductive socket_event :=
| data_event (data : list byte)
| end_event
| error_event (message : jsstring).

Definition on_connection (remoteAddress : jsvalue) : js (option jsstring) :=
  write_console
    (console_log [text "MT5 client connected from"; shown remoteAddress]);;
  mret (Some []).

Definition on_end : js unit :=
  write_console (console_log [text "MT5 client disconnected"]).

Definition on_error (message : jsstring) : js unit :=
  write_console (console_error [text "Socket error:"; shown (Str message)]).

Definition on_event (e : socket_event) (buffer : option jsstring)
  : js (option jsstring) :=
  match e with
  | data_event data => on_data data buffer
  | end_event => on_end;; mret buffer
  | error_event message => on_error message;; mret buffer
  end.

Fixpoint on_events (events : list socket_event) (buffer : option jsstring)
  : js (option jsstring) :=
  match events with
  | [] => mret buffer
  | e :: rest => buffer ← on_event e buffer; on_events rest buffer
  end.

(** A client from its connection to its last event. *)
Definition connection (remoteAddress : jsvalue) (events : list socket_event)
  : js (option jsstring) :=
  buffer ← on_connection remoteAddress; on_events events buffer.

End Program.

Arguments res_json {A} body.
Arguments res_404 {A} error.
Arguments res_500 {A}.

(** ** A runtime to run the program on

    Numbers are exact decimals [mantissa * 10 ^ exponent], [JSON.parse] is a
    parser of the JSON grammar, [toUpperCase] maps the ASCII letters and the
    n-th clock reading is written [T+n].  It agrees with a JavaScript engine
    on ASCII symbols and on the integers and short decimals of the examples
    below; the theorems do not depend on it. *)

Module Sample.

Record decimal := mkDecimal { mantissa : Z; exponent : Z }.

Definition print_N (n : N) : jsstring :=
  lit (NilEmpty.string_of_uint (N.to_uint n)).

(** The digits of [n] on [width] places. *)
Definition print_padded (width : nat) (n : N) : jsstring :=
  let d := print_N n in replicate (width - length d) 0x30 ++ d.

Fixpoint strip_zeros (fuel : nat) (m e : Z) : Z * Z :=
  match fuel with
  | O => (m, e)
  | S fuel =>
      if (e <? 0)%Z && (m mod 10 =? 0)%Z && negb (m =? 0)%Z
      then strip_zeros fuel (m / 10)%Z (e + 1)%Z
      else (m, e)
  end.

Definition print_decimal (d : decimal) : jsstring :=
  let '(m, e) := strip_zeros (Z.to_nat (- exponent d))
                   (mantissa d) (exponent d) in
  let sign := if (m <? 0)%Z then lit "-" else [] in
  let a := Z.to_N (Z.abs m) in
  if (0 <=? e)%Z then sign ++ print_N (a * 10 ^ Z.to_N e)
  else
    let unit := 10 ^ Z.to_N (- e) in
    sign ++ print_N (a / unit) ++ lit "."
      ++ print_padded (Z.to_nat (- e)) (a mod unit).

Abbreviation json := (value decimal).

Definition is_json_space (c : N) : bool :=
  (c =? 0x20) || (c =? 0x09) || (c =? 0x0A) || (c =? 0x0D).

Fixpoint skip_space (s : jsstring) : jsstring :=
  match s with
  | c :: s' => if is_json_space c then skip_space s' else s
  | [] => []
  end.

Definition is_digit (c : N) : bool := (0x30 <=? c) && (c <=? 0x39).

(** The digits at the head of [s], read onto [acc]; how many there were. *)
Fixpoint read_digits (acc : Z) (count : nat) (s : jsstring)
  : Z * nat * jsstring :=
  match s with
  | c :: s' =>
      if is_digit c
      then read_digits (acc * 10 + Z.of_N (c - 0x30))%Z (S count) s'
      else (acc, count, s)
  | [] => (acc, count, s)
  end.

(** A JSON number: an optional minus, an integer part without a leading
    zero, an optional fraction and an optional exponent. *)
Definition parse_number (s : jsstring) : option (decimal * jsstring) :=
  let '(negative, s) :=
    match s with 0x2D :: r => (true, r) | _ => (false, s) end in
  let '(int, n, r) := read_digits 0 0 s in
  if bool_decide (n = 0%nat) then None
  else if bool_decide (1 < n)%nat && bool_decide (head s = Some 0x30)
  then None
  else
    match
      match r with
      | 0x2E :: r1 =>
          let '(m, k, r2) := read_digits int 0 r1 in
          if bool_decide (k = 0%nat) then None else Some (m, Z.of_nat k, r2)
      | _ => Some (int, 0%Z, r)
      end
    with
    | None => None
    | Some (m, k, r) =>
        let m := if negative then (- m)%Z else m in
        match r with
        | 0x65 :: r1 | 0x45 :: r1 =>
            let '(minus, r2) :=
              match r1 with
              | 0x2D :: r2 => (true, r2)
              | 0x2B :: r2 => (false, r2)
              | _ => (false, r1)
              end in
            let '(x, j, r3) := read_digits 0 0 r2 in
            if bool_decide (j = 0%nat) then None
            else Some (mkDecimal m ((if minus then - x else x) - k)%Z, r3)
        | _ => Some (mkDecimal m (- k)%Z, r)
        end
    end.

Definition hex_value (c : N) : option N :=
  if is_digit c then Some (c - 0x30)
  else if (0x61 <=? c) && (c <=? 0x66) then Some (c - 0x61 + 10)
  else if (0x41 <=? c) && (c <=? 0x46) then Some (c - 0x41 + 10)
  else None.

(** The characters of a string literal after its opening quote. *)
Fixpoint parse_chars (fuel : nat) (acc : jsstring) (s : jsstring)
  : option (jsstring * jsstring) :=
  match fuel with
  | O => None
  | S fuel =>
      match s with
      | [] => None
      | 0x22 :: r => Some (acc, r)
      | 0x5C :: e :: r =>
          let simple c := parse_chars fuel (acc ++ [c]) r in
          if e =? 0x22 then simple 0x22
          else if e =? 0x5C then simple 0x5C
          else if e =? 0x2F then simple 0x2F
          else if e =? 0x62 then simple 0x08
          else if e =? 0x66 then simple 0x0C
          else if e =? 0x6E then simple 0x0A
          else if e =? 0x72 then simple 0x0D
          else if e =? 0x74 then simple 0x09
          else if e =? 0x75 then
            match r with
            | a :: b :: c :: d :: r' =>
                match hex_value a, hex_value b, hex_value c, hex_value d with
                | Some a, Some b, Some c, Some d =>
                    parse_chars fuel
                      (acc ++ [((a * 16 + b) * 16 + c) * 16 + d]) r'
                | _, _, _, _ => None
                end
            | _ => None
            end
          else None
      | c :: r => if c <? 0x20 then None else parse_chars fuel (acc ++ [c]) r
      end
  end.

Definition parse_string (s : jsstring) : option (jsstring * jsstring) :=
  match s with
  | 0x22 :: r => parse_chars (length s) [] r
  | _ => None
  end.

Definition expect (word : jsstring) (v : json) (s : jsstring)
  : option (json * jsstring) :=
  if bool_decide (take (length word) s = word)
  then Some (v, drop (length word) s) else None.

Fixpoint parse_value (fuel : nat) (s : jsstring) : option (json * jsstring) :=
  match fuel with
  | O => None
  | S fuel =>
      match skip_space s with
      | 0x7B :: r =>
          match skip_space r with
          | 0x7D :: r' => Some (Obj [], r')
          | _ => parse_members fuel [] r
          end
      | 0x5B :: r =>
          match skip_space r with
          | 0x5D :: r' => Some (Arr [], r')
          | _ => parse_elements fuel [] r
          end
      | 0x22 :: r =>
          match parse_string (0x22 :: r) with
          | Some (str, r') => Some (Str str, r')
          | None => None
          end
      | 0x74 :: r => expect (lit "true") (Bool true) (0x74 :: r)
      | 0x66 :: r => expect (lit "false") (Bool false) (0x66 :: r)
      | 0x6E :: r => expect (lit "null") Null (0x6E :: r)
      | s' =>
          match parse_number s' with
          | Some (n, r) => Some (Num n, r)
          | None => None
          end
      end
  end
with parse_elements (fuel : nat) (acc : list json) (s : jsstring)
  : option (json * jsstring) :=
  match fuel with
  | O => None
  | S fuel =>
      match parse_value fuel s with
      | None => None
      | Some (v, r) =>
          match skip_space r with
          | 0x2C :: r' => parse_elements fuel (acc ++ [v]) r'
          | 0x5D :: r' => Some (Arr (acc ++ [v]), r')
          | _ => None
          end
      end
  end
with parse_members (fuel : nat) (acc : list (jsstring * json)) (s : jsstring)
  : option (json * jsstring) :=
  match fuel with
  | O => None
  | S fuel =>
      match parse_string (skip_space s) with
      | None => None
      | Some (k, r) =>
          match skip_space r with
          | 0x3A :: r' =>
              match parse_value fuel r' with
              | None => None
              | Some (v, r'') =>
                  match skip_space r'' with
                  | 0x2C :: r3 => parse_members fuel (put acc k v) r3
                  | 0x7D :: r3 => Some (Obj (put acc k v), r3)
                  | _ => None
                  end
              end
          | _ => None
          end
      end
  end.

(** The whole text must be one JSON value. *)
Definition parse (s : jsstring) : option json :=
  match parse_value (2 * length s + 2) s with
  | Some (v, r) => if bool_decide (skip_space r = []) then Some v else None
  | None => None
  end.

#[export] Instance numbers : Numbers := decimal.

#[export] Instance runtime : Runtime := {|
  Number_ofNat n := mkDecimal (Z.of_nat n) 0;
  Number_toBoolean d := negb (mantissa d =? 0)%Z;
  Number_toString := print_decimal;
  JSON_parse := parse;
  toUpperCase := map ascii_upper;
  toUpperCase_ascii := fun s _ => eq_refl;
  toISOString n := lit "T+" ++ print_N (N.of_nat n)
|}.

(** The bytes of an ASCII text in which an apostrophe stands for the
    double quote of JSON. *)
Definition bytes (s : string) : list byte :=
  map (fun b => match b with x27 => x22 | _ => b end) (list_byte_of_string s).

(** The text of such bytes, and the message it parses to. *)
Definition line (s : string) : jsstring := Buffer_toString (bytes s).

Definition message (s : string) : json := default Null (parse (line s)).

Definition EURUSD : jsstring := lit "EURUSD".
Definition M1 : jsstring := lit "M1".

(** A live price whose [venue] holds a u with diaeresis, C3 BC in UTF-8,
    ended by a newline. *)
Definition accented_line : list byte :=
  bytes "{'type':'live_price','symbol':'EURUSD','venue':'Z"
    ++ [xc3; xbc] ++ bytes "rich'}" ++ [x0a].

End Sample.

(** ** Notions used by the statements *)

(** What follows the last separator of a text. *)
Definition residual (sep : N) (s : jsstring) : jsstring :=
  default [] (last (String_split sep s)).

Definition is_ascii (data : list byte) : Prop :=
  Forall (fun b => Byte.to_N b < 0x80) data.

(** The names of the properties of [Object.prototype], which every plain
    object answers for without holding them. *)
Definition inherited_names : list jsstring :=
  [lit "constructor"; lit "__defineGetter__"; lit "__defineSetter__";
   lit "hasOwnProperty"; lit "__lookupGetter__"; lit "__lookupSetter__";
   lit "isPrototypeOf"; lit "propertyIsEnumerable"; lit "toString";
   lit "valueOf"; lit "__proto__"; lit "toLocaleString"].

Section Notions.
Context `{Runtime}.

(** The entry of [ohlcvData] for a symbol and a timeframe, when both
    objects have the keys. *)
Definition series (ds : DataStore) (ks kt : jsstring) : option jsvalue :=
  tfs ← ohlcvData ds !! ks; tfs !! kt.

(** [data.receivedAt = t] *)
Definition stamp (d : jsvalue) (t : jsstring) : jsvalue :=
  SetV d (lit "receivedAt") (Str t).

(** A [live_price] message the program accepts, and the key it uses. *)
Definition live_price_update (d : jsvalue) (key : jsstring) : Prop :=
  GetV d (lit "type") = Normal (Str (lit "live_price"))
  /\ exists symbol,
      GetV d (lit "symbol") = Normal symbol
      /\ ToBoolean symbol = true
      /\ ToPropertyKey symbol = Normal key.

(** An [ohlcv] message with a symbol and a timeframe, the keys it uses and
    what its [candles] property holds. *)
Definition ohlcv_update (d : jsvalue) (ks kt : jsstring) (candles : jsvalue)
  : Prop :=
  GetV d (lit "type") = Normal (Str (lit "ohlcv"))
  /\ (exists symbol,
        GetV d (lit "symbol") = Normal symbol
        /\ ToBoolean symbol = true
        /\ ToPropertyKey symbol = Normal ks)
  /\ (exists timeframe,
        GetV d (lit "timeframe") = Normal timeframe
        /\ ToBoolean timeframe = true
        /\ ToPropertyKey timeframe = Normal kt)
  /\ GetV d (lit "candles") = Normal candles.

(** A [symbol_list] message and what its [symbols] property holds. *)
Definition catalog_update (d : jsvalue) (symbols : jsvalue) : Prop :=
  GetV d (lit "type") = Normal (Str (lit "symbol_list"))
  /\ GetV d (lit "symbols") = Normal symbols.

(** A statement whose result, store and clock do not depend on what the
    console holds, and which only adds entries to the console. *)
Definition blind {A} (m : js A) : Prop :=
  forall ds k, exists r ds' es k',
    forall c, m (mkWorld ds c k) = (r, mkWorld ds' (c ++ es) k').

(** The chunks of the data events among [events], in order. *)
Definition chunks_of (events : list socket_event) : list (list byte) :=
  omap (fun e => match e with data_event data => Some data | _ => None end)
    events.

(** The text a line of the stream takes in it: the line and its newline. *)
Definition terminated (m : jsstring) : jsstring := m ++ [LF].

(** The world after the lines [lines] went through the loop. *)
Definition after_lines (lines : list jsstring) (w : world) : world :=
  snd (for_of lines handle_message w).

(** The key a property of a message makes, when reading and converting
    it does not throw. *)
Definition key_of (d : jsvalue) (name : jsstring) : option jsstring :=
  match GetV d name with
  | Normal v =>
      match ToPropertyKey v with
      | Normal k => Some k
      | Throw _ => None
      end
  | Throw _ => None
  end.

(** A message that cannot make the program write through an inherited
    name: [livePrices[data.symbol]] and [ohlcvData[data.symbol]] are not
    reached under a name of [Object.prototype], and
    [ohlcvData[data.symbol][data.timeframe]] not under [__proto__]. *)
Definition tame (d : jsvalue) : bool :=
  match key_of d (lit "symbol") with
  | Some k => bool_decide (k ∉ inherited_names)
  | None => true
  end
  && match key_of d (lit "timeframe") with
     | Some k => bool_decide (k ≠ lit "__proto__")
     | None => true
     end.

(** Lines all of whose messages are tame.  After such lines, from the
    start of the program, [Object.prototype] is as the runtime made it
    and every dictionary of the store has it as its prototype, so that
    reading a key of a dictionary, or a property of a parsed message,
    finds an own property or, under a name of [inherited_names] only,
    what the runtime put there. *)
Definition clean (lines : list jsstring) : bool :=
  forallb
    (fun line =>
       match JSON_parse line with
       | Some d => tame d
       | None => true
       end)
    lines.

End Notions.

(** * Properties *)

(** ** Strings and buffers *)

Lemma String_split_nonempty sep s : String_split sep s ≠ [].
Proof.
  destruct s as [|c s]; simpl; [done|].
  destruct (c =? sep); [done|]. by destruct (String_split sep s).
Qed.

Lemma removelast_cons {A} (x : A) l :
  l ≠ [] → removelast (x :: l) = x :: removelast l.
Proof. by destruct l. Qed.

Lemma last_cons_ne {A} (x : A) l : l ≠ [] → last (x :: l) = last l.
Proof. by destruct l. Qed.

Lemma last_split sep s : last (String_split sep s) = Some (residual sep s).
Proof.
  unfold residual. pose proof (String_split_nonempty sep s) as Hne.
  destruct (last (String_split sep s)) eqn:E; [done|].
  by apply last_None in E.
Qed.

(** Splitting a text in two parts: the pieces completed by the first part,
    then the pieces of its residual followed by the second part. *)
Lemma String_split_app sep a b :
  String_split sep (a ++ b)
  = removelast (String_split sep a) ++ String_split sep (residual sep a ++ b).
Proof.
  unfold residual. induction a as [|c a IH]; simpl; [done|].
  pose proof (String_split_nonempty sep a) as Hne.
  destruct (c =? sep) eqn:Hc.
  - rewrite IH, removelast_cons, last_cons_ne by done. done.
  - rewrite IH. destruct (String_split sep a) as [|p [|p' ps]]; [done| |].
    + simpl. by rewrite Hc.
    + done.
Qed.

Lemma pop_split_app sep a b :
  pop (String_split sep (a ++ b))
  = (removelast (String_split sep a)
       ++ removelast (String_split sep (residual sep a ++ b)),
     Some (residual sep (residual sep a ++ b))).
Proof.
  unfold pop. rewrite String_split_app.
  rewrite removelast_app by apply String_split_nonempty.
  by rewrite last_app, last_split.
Qed.

(** One data event on a buffer that holds a string. *)
Lemma feed_Some b data :
  feed (Some b) data
  = (removelast (String_split LF (b ++ Buffer_toString data)),
     Some (residual LF (b ++ Buffer_toString data))).
Proof. unfold feed, pop. simpl. by rewrite last_split. Qed.

Lemma String_split_no_sep sep s : sep ∉ s → String_split sep s = [s].
Proof.
  induction s as [|c s IH]; intros Hs; simpl; [done|].
  apply not_elem_of_cons in Hs as [Hc Hs].
  destruct (N.eqb_spec c sep); [congruence|]. by rewrite IH.
Qed.

Lemma String_split_pieces sep s :
  Forall (fun p => sep ∉ p) (String_split sep s).
Proof.
  induction s as [|c s IH]; simpl.
  - repeat constructor. apply not_elem_of_nil.
  - destruct (N.eqb_spec c sep) as [->|Hc].
    + constructor; [apply not_elem_of_nil | done].
    + destruct (String_split sep s) as [|p ps]; inversion IH; subst.
      * repeat constructor. by apply not_elem_of_cons; split; [|apply not_elem_of_nil].
      * constructor; [|done]. by apply not_elem_of_cons.
Qed.

Lemma residual_no_sep sep s : sep ∉ residual sep s.
Proof.
  pose proof (last_split sep s) as Hl. apply last_Some in Hl as [l' Hl].
  pose proof (String_split_pieces sep s) as Hp. rewrite Hl in Hp.
  apply Forall_app in Hp as [_ Hp]. by inversion Hp.
Qed.

(** The data events of a connection complete the pieces of the text they
    decode to, the last piece excepted, which stays in the buffer. *)
Lemma feed_all_text b chunks :
  LF ∉ b →
  feed_all (Some b) chunks
  = (removelast (String_split LF (b ++ concat (Buffer_toString <$> chunks))),
     Some (residual LF (b ++ concat (Buffer_toString <$> chunks)))).
Proof.
  revert b. induction chunks as [|data rest IH]; intros b Hb.
  - simpl. rewrite app_nil_r. unfold residual.
    by rewrite String_split_no_sep.
  - cbn [feed_all]. rewrite feed_Some, IH by apply residual_no_sep.
    simpl. rewrite (assoc_L (++)).
    pose proof (pop_split_app LF (b ++ Buffer_toString data)
                  (concat (Buffer_toString <$> rest))) as E.
    unfold pop in E. rewrite last_split in E. by inversion E.
Qed.

(** Two ways of cutting a stream that decode to the same text complete the
    same messages and leave the same buffer. *)
Lemma feed_all_same_text b chunks1 chunks2 :
  LF ∉ b →
  concat (Buffer_toString <$> chunks1) = concat (Buffer_toString <$> chunks2) →
  feed_all (Some b) chunks1 = feed_all (Some b) chunks2.
Proof. intros Hb E. by rewrite !feed_all_text, E. Qed.

Lemma utf8_decode_ascii_app a b :
  is_ascii a →
  utf8_decode utf8_start (a ++ b)
  = (Byte.to_N <$> a) ++ utf8_decode utf8_start b.
Proof.
  induction 1 as [|c a Hc _ IH]; [done|].
  simpl. unfold utf8_step, utf8_lead. simpl.
  destruct (N.leb_spec (Byte.to_N c) 0x7F); [|lia]. simpl. by rewrite IH.
Qed.

(** On ASCII bytes decoding commutes with concatenation. *)
Lemma Buffer_toString_ascii_app a b :
  is_ascii a →
  Buffer_toString (a ++ b) = Buffer_toString a ++ Buffer_toString b.
Proof.
  intros Ha. unfold Buffer_toString.
  rewrite utf8_decode_ascii_app by done.
  rewrite <- (app_nil_r a) at 2. rewrite utf8_decode_ascii_app by done.
  simpl. by rewrite app_nil_r, flat_map_app.
Qed.

Lemma Buffer_toString_ascii_concat chunks :
  is_ascii (concat chunks) →
  concat (Buffer_toString <$> chunks) = Buffer_toString (concat chunks).
Proof.
  induction chunks as [|c rest IH]; [done|]. intros Ha.
  cbn [concat fmap list_fmap] in *.
  apply Forall_app in Ha as [Hc Hrest].
  by rewrite Buffer_toString_ascii_app, <- IH.
Qed.

(** An ASCII stream gives the same messages however it is cut: in the
    middle of a message, on a boundary, or not at all. *)
Lemma feed_all_ascii chunks :
  is_ascii (concat chunks) →
  feed_all (Some []) chunks = feed_all (Some []) [concat chunks].
Proof.
  intros Ha. apply feed_all_same_text; [apply not_elem_of_nil|].
  rewrite Buffer_toString_ascii_concat by done. simpl. by rewrite app_nil_r.
Qed.

(** C1, at the input where the program departs from it: the stream
    [accented_line] is one message; cut between the two bytes of its
    non-ASCII character, the decoder completes another message, in which
    each half of the character has become U+FFFD. *)
Theorem feed_cut_inside_character :
  let stream := Sample.accented_line in
  let cut := [take 50 stream; drop 50 stream] in
  concat cut = stream
  /\ fst (feed_all (Some []) [stream])
     = [Buffer_toString (removelast stream)]
  /\ (exists a b, fst (feed_all (Some []) cut)
                  = [a ++ [REPLACEMENT; REPLACEMENT] ++ b])
  /\ fst (feed_all (Some []) cut) ≠ fst (feed_all (Some []) [stream]).
Proof.
  intros stream cut. split; [|split; [|split]].
  - vm_compute. reflexivity.
  - vm_compute. reflexivity.
  - exists (Buffer_toString (take 49 stream)).
    exists (Buffer_toString (drop 51 (removelast stream))).
    vm_compute. reflexivity.
  - vm_compute. discriminate.
Qed.

(** ** Records and conversions *)


Lemma own_put_ne {number} (props : list (jsstring * value number)) k k' v :
  k ≠ k' → own (put props k v) k' = own props k'.
Proof.
  intros Hne. induction props as [|[k0 v0] rest IH]; simpl.
  - by rewrite decide_False.
  - destruct (decide (k0 = k)) as [->|Hk]; simpl.
    + by rewrite !decide_False.
    + by rewrite IH.
Qed.

Section Properties.
Context `{Runtime}.

Lemma GetV_SetV_ne (d x : jsvalue) k k' :
  k ≠ k' → GetV (SetV d k x) k' = GetV d k'.
Proof.
  intros Hne. destruct d; simpl; try done. by rewrite own_put_ne.
Qed.

(** Only a record has a [type] that is a string. *)
Lemma GetV_type_record (d : jsvalue) s :
  GetV d (lit "type") = Normal (Str s) → exists props, d = Obj props.
Proof. destruct d; simpl; try discriminate. eauto. Qed.


(** ** [processIncomingData], one kind of message at a time *)

Ltac eval_switch :=
  repeat match goal with
    | |- context [is_string (Str ?a) ?b] =>
        let r := eval vm_compute in (is_string (Str a) b) in
        change (is_string (Str a) b) with r
    end.

Ltac js_unfold :=
  unfold set_livePrice, get_symbol, set_symbol, get_series, set_series,
    set_symbolList, get_store, set_store, write_console, Date_now,
    try_catch, mbind, js_bind, mret, js_ret, throw, lift, ToPropertyKey in *.

(** An accepted live price is stored under its key, stamped with the
    clock reading made on entry; nothing else changes and nothing is
    written to the console. *)
Lemma processIncomingData_live_price w d key :
  live_price_update d key →
  processIncomingData d w
  = (Normal tt,
     mkWorld
       (assign_livePrice key (stamp d (toISOString (clock w))) (dataStore w))
       (console w) (S (clock w))).
Proof.
  intros (Hty & symbol & Hsym & Htrue & Hkey).
  unfold processIncomingData. js_unfold.
  rewrite Hty. eval_switch. cbn iota. rewrite Hsym, Htrue. cbn.
  rewrite GetV_SetV_ne by (vm_compute; discriminate).
  by rewrite Hsym, Hkey.
Qed.

Lemma is_string_true (v : jsvalue) s : is_string v s = true → v = Str s.
Proof.
  destruct v; simpl; try discriminate. by intros ->%bool_decide_eq_true.
Qed.

(** An [ohlcv] message with a symbol and a timeframe writes what its
    [candles] property holds into the entry of its keys, whatever the
    entry held; reading the length for the console comes after, and
    throws when there is nothing to read it from. *)
Lemma processIncomingData_ohlcv w d ks kt c :
  ohlcv_update d ks kt c →
  let ds' :=
    assign_symbol ks
      (<[kt := c]> (default ∅ (ohlcvData (dataStore w) !! ks)))
      (dataStore w) in
  processIncomingData d w
  = match GetV c (lit "length") with
    | Throw e => (Throw e, mkWorld ds' (console w) (S (clock w)))
    | Normal len =>
        match ToString len with
        | Throw e => (Throw e, mkWorld ds' (console w) (S (clock w)))
        | Normal n =>
            (Normal tt,
             mkWorld ds' (console w ++ [received_candles n ks kt])
               (S (clock w)))
        end
    end.
Proof.
  intros (Hty & (symbol & Hsym & Hs & Hks) & (timeframe & Htf & Ht & Hkt) & Hc).
  unfold processIncomingData. js_unfold.
  rewrite Hty. eval_switch. cbn iota. rewrite Hsym, Hs. cbn iota.
  rewrite Htf, Ht. cbn [negb orb]. cbn iota. rewrite Hks. cbn.
  rewrite Hkt.
  rewrite !GetV_SetV_ne by (vm_compute; discriminate).
  rewrite Hsym, Hks, Htf, Hkt, Hc.
  assert (forall tfs0 (ds : DataStore),
    assign_symbol ks (<[kt := c]> (<[kt := Arr []]> tfs0)) (assign_symbol ks (<[kt := Arr []]> tfs0) ds)
    = assign_symbol ks (<[kt := c]> tfs0) ds) as Ea.
  { intros. unfold assign_symbol. simpl. by rewrite !insert_insert_eq. }
  assert (forall tfs0 tfs1 (ds : DataStore),
    assign_symbol ks tfs0 (assign_symbol ks tfs1 ds)
    = assign_symbol ks tfs0 ds) as Eb.
  { intros. unfold assign_symbol. simpl. by rewrite !insert_insert_eq. }
  destruct (ohlcvData (dataStore w) !! ks) as [tfs|] eqn:E; cbn.
  - rewrite E. cbn. destruct (ToBoolean (default Undefined (tfs !! kt))); cbn.
    + rewrite E. cbn.
      destruct (GetV c (lit "length")) as [len|e]; [|done].
      destruct (ToString len) as [n|e]; done.
    + rewrite E. cbn. rewrite lookup_insert_eq. cbn. rewrite Ea.
      destruct (GetV c (lit "length")) as [len|e]; [|done].
      destruct (ToString len) as [n|e]; done.
  - rewrite lookup_insert_eq. cbn. rewrite lookup_empty. cbn.
    rewrite lookup_insert_eq. cbn. rewrite lookup_insert_eq. cbn.
    rewrite !Eb. rewrite insert_insert_eq.
    destruct (GetV c (lit "length")) as [len|e]; [|done].
    destruct (ToString len) as [n|e]; done.
Qed.

(** A catalog whose [symbols] is an array replaces the stored one; with
    anything else the message changes nothing and writes nothing. *)
Lemma processIncomingData_catalog w d symbols :
  catalog_update d symbols →
  processIncomingData d w
  = match symbols with
    | Arr l =>
        (Normal tt,
         mkWorld (assign_symbolList symbols (dataStore w))
           (console w
              ++ [received_symbol_list
                    (Number_toString (Number_ofNat (length l)))])
           (S (clock w)))
    | _ => (Normal tt, mkWorld (dataStore w) (console w) (S (clock w)))
    end.
Proof.
  intros (Hty & Hsym).
  unfold processIncomingData. js_unfold.
  rewrite Hty. eval_switch. cbn iota. rewrite Hsym.
  destruct symbols; try done.
Qed.

(** ** The console is only written

    A statement is [blind] when its result, the store and the clock it
    leaves do not depend on what the console holds, and the console only
    grows. *)

Lemma blind_ret {A} (a : A) : blind (mret a).
Proof. intros ds k. by exists (Normal a), ds, [], k; intros c; rewrite app_nil_r. Qed.

Lemma blind_throw {A} e : blind (@throw _ A e).
Proof. intros ds k. by exists (Throw e), ds, [], k; intros c; rewrite app_nil_r. Qed.

Lemma blind_lift {A} (r : completion A) : blind (lift r).
Proof. intros ds k. by exists r, ds, [], k; intros c; rewrite app_nil_r. Qed.

Lemma blind_Date_now : blind Date_now.
Proof.
  intros ds k. exists (Normal (toISOString k)), ds, [], (S k); intros c.
  unfold Date_now; simpl. by rewrite app_nil_r.
Qed.

Lemma blind_write_console e : blind (write_console e).
Proof. intros ds k. by exists (Normal tt), ds, [e], k. Qed.

Lemma blind_get_store : blind get_store.
Proof. intros ds k. by exists (Normal ds), ds, [], k; intros c; rewrite app_nil_r. Qed.

Lemma blind_set_store ds' : blind (set_store ds').
Proof. intros ds k. by exists (Normal tt), ds', [], k; intros c; rewrite app_nil_r. Qed.

Lemma blind_bind {A B} (m : js A) (f : A → js B) :
  blind m → (forall a, blind (f a)) → blind (m ≫= f).
Proof.
  intros Hm Hf ds k. destruct (Hm ds k) as (r & ds1 & es1 & k1 & E1).
  destruct r as [a|e].
  - destruct (Hf a ds1 k1) as (r2 & ds2 & es2 & k2 & E2).
    exists r2, ds2, (es1 ++ es2), k2. intros c.
    unfold mbind, js_bind. by rewrite E1, E2, (assoc_L (++)).
  - exists (Throw e), ds1, es1, k1. intros c.
    unfold mbind, js_bind. by rewrite E1.
Qed.

Lemma blind_try_catch {A} (m : js A) (h : exn → js A) :
  blind m → (forall e, blind (h e)) → blind (try_catch m h).
Proof.
  intros Hm Hh ds k. destruct (Hm ds k) as (r & ds1 & es1 & k1 & E1).
  destruct r as [a|e].
  - exists (Normal a), ds1, es1, k1. intros c.
    unfold try_catch. by rewrite E1.
  - destruct (Hh e ds1 k1) as (r2 & ds2 & es2 & k2 & E2).
    exists r2, ds2, (es1 ++ es2), k2. intros c.
    unfold try_catch. by rewrite E1, E2, (assoc_L (++)).
Qed.

Ltac blind_step :=
  first
    [ apply blind_ret | apply blind_throw | apply blind_lift
    | apply blind_Date_now | apply blind_write_console
    | apply blind_get_store | apply blind_set_store
    | apply blind_bind; [|intros ?]
    | apply blind_try_catch; [|intros ?]
    | match goal with
      | |- blind (if ?b then _ else _) => destruct b
      | |- blind (match ?x with _ => _ end) => destruct x
      end ].

Lemma blind_processIncomingData d : blind (processIncomingData d).
Proof.
  unfold processIncomingData, set_livePrice, get_symbol, set_symbol,
    get_series, set_series, set_symbolList.
  repeat blind_step.
Qed.

Lemma blind_handle_message m : blind (handle_message m).
Proof.
  unfold handle_message.
  repeat first [apply blind_processIncomingData | blind_step].
Qed.

Lemma blind_for_of {A} (l : list A) (body : A → js unit) :
  (forall x, blind (body x)) → blind (for_of l body).
Proof.
  intros Hb. induction l as [|x l IH]; simpl; [apply blind_ret|].
  apply blind_bind; [apply Hb | intros _; apply IH].
Qed.

(** ** The loop over the messages *)

(** The body of the loop never throws. *)
Lemma handle_message_normal m w : (handle_message m w).1 = Normal tt.
Proof.
  unfold handle_message. case_bool_decide; [done|].
  unfold try_catch. js_unfold.
  destruct (JSON_parse m) as [d|]; [|done].
  by destruct (processIncomingData d w) as [[[]|e] w'].
Qed.

Lemma for_of_handle_message_normal lines w :
  (for_of lines handle_message w).1 = Normal tt.
Proof.
  revert w. induction lines as [|m lines IH]; intros w; [done|].
  simpl. unfold mbind, js_bind.
  pose proof (handle_message_normal m w) as Hm.
  destruct (handle_message m w) as [r w']. simpl in Hm. subst r. apply IH.
Qed.

(** [socket.on('data')] never throws either: no event ends the
    connection by an exception. *)
Lemma on_data_normal data buffer w :
  exists buffer', (on_data data buffer w).1 = Normal buffer'.
Proof.
  unfold on_data. destruct (feed buffer data) as [messages buffer'].
  exists buffer'. unfold mbind, js_bind.
  pose proof (for_of_handle_message_normal messages w) as Hm.
  destruct (for_of messages handle_message w) as [r w']. simpl in Hm.
  by subst r.
Qed.

Lemma after_lines_app lines1 lines2 w :
  after_lines (lines1 ++ lines2) w = after_lines lines2 (after_lines lines1 w).
Proof.
  revert w. induction lines1 as [|m rest IH]; intros w; [done|].
  unfold after_lines in *. simpl. unfold mbind, js_bind.
  pose proof (handle_message_normal m w) as Hn.
  destruct (handle_message m w) as [r w']. simpl in Hn. subst r. apply IH.
Qed.

(** The data events of a connection put through the loop, in order, the
    messages the decoder completes, and keep its last buffer. *)
Lemma on_data_all_lines chunks buffer w :
  on_data_all chunks buffer w
  = (Normal (feed_all buffer chunks).2,
     after_lines (feed_all buffer chunks).1 w).
Proof.
  revert buffer w. induction chunks as [|data rest IH]; intros buffer w.
  - simpl. unfold after_lines. by destruct w.
  - cbn [on_data_all feed_all]. unfold on_data, mbind, js_bind.
    destruct (feed buffer data) as [messages buffer'].
    pose proof (for_of_handle_message_normal messages w) as Hn.
    destruct (for_of messages handle_message w) as [r w'] eqn:E.
    simpl in Hn. subst r. cbn [mret js_ret]. rewrite IH.
    destruct (feed_all buffer' rest) as [more buffer''].
    cbn [fst snd]. rewrite after_lines_app. unfold after_lines at 3.
    by rewrite E.
Qed.

(** However an ASCII stream is cut into data events, the connection ends
    in the same world with the same buffer. *)
Lemma on_data_all_ascii chunks w :
  is_ascii (concat chunks) →
  on_data_all chunks (Some []) w = on_data_all [concat chunks] (Some []) w.
Proof. intros Ha. by rewrite !on_data_all_lines, (feed_all_ascii _ Ha). Qed.

(** A valid line applies its message: the store and the clock are those
    [processIncomingData] leaves. *)
Lemma handle_message_valid m d w :
  trim m ≠ [] → JSON_parse m = Some d →
  dataStore (handle_message m w).2 = dataStore (processIncomingData d w).2
  /\ clock (handle_message m w).2 = clock (processIncomingData d w).2.
Proof.
  intros Hm Hd. unfold handle_message. rewrite bool_decide_false by done.
  rewrite Hd. unfold try_catch. js_unfold.
  by destruct (processIncomingData d w) as [[[]|e] w'].
Qed.

(** Two worlds with the same store and the same clock go through the
    loop to worlds with the same store and the same clock. *)
Lemma after_lines_console lines ds c1 c2 k :
  dataStore (after_lines lines (mkWorld ds c1 k))
  = dataStore (after_lines lines (mkWorld ds c2 k))
  /\ clock (after_lines lines (mkWorld ds c1 k))
     = clock (after_lines lines (mkWorld ds c2 k)).
Proof.
  unfold after_lines.
  destruct (blind_for_of lines handle_message blind_handle_message ds k)
    as (r & ds' & es & k' & E).
  by rewrite !E.
Qed.

Lemma trimStart_blank m :
  Forall (fun c => is_white_space c = true) m → trimStart m = [].
Proof. induction 1 as [|c m Hc _ IH]; simpl; [done|]. by rewrite Hc. Qed.

Lemma trim_blank m :
  Forall (fun c => is_white_space c = true) m → trim m = [].
Proof. intros Hm. unfold trim. by rewrite trimStart_blank. Qed.

(** C2: a line that [JSON.parse] rejects leaves the store (and the clock)
    as they were and only writes to the console; the loop goes on, the
    lines after it are processed with the same effect on the store as if
    the rejected line had not been there, and a valid line that follows is
    applied to the store. *)
Theorem unparseable_line_is_isolated (bad : jsstring) (w : world) :
  JSON_parse bad = None →
  (exists entries,
     handle_message bad w
     = (Normal tt, mkWorld (dataStore w) (console w ++ entries) (clock w)))
  /\ (forall rest,
        (for_of (bad :: rest) handle_message w).1 = Normal tt
        /\ dataStore (after_lines (bad :: rest) w)
           = dataStore (after_lines rest w))
  /\ (forall good data,
        trim good ≠ [] → JSON_parse good = Some data →
        dataStore (after_lines [bad; good] w)
        = dataStore (processIncomingData data w).2).
Proof.
  intros Hbad.
  assert (exists entries,
     handle_message bad w
     = (Normal tt, mkWorld (dataStore w) (console w ++ entries) (clock w)))
    as [entries E].
  { unfold handle_message. case_bool_decide.
    - exists []. rewrite app_nil_r. by destruct w.
    - rewrite Hbad. unfold try_catch. js_unfold. eauto. }
  assert (forall rest,
    dataStore (after_lines (bad :: rest) w) = dataStore (after_lines rest w))
    as Hrest.
  { intros rest. unfold after_lines at 1. simpl. unfold mbind, js_bind.
    rewrite E. fold (after_lines rest (mkWorld (dataStore w) (console w ++ entries) (clock w))).
    destruct w as [ds c k]. apply after_lines_console. }
  split; [eauto|]. split.
  - intros rest. split; [apply for_of_handle_message_normal | apply Hrest].
  - intros good data Hgood Hdata. rewrite Hrest.
    unfold after_lines. simpl. unfold mbind, js_bind.
    pose proof (handle_message_normal good w) as Hn.
    pose proof (handle_message_valid good data w Hgood Hdata) as [Hs _].
    destruct (handle_message good w) as [r w']. simpl in *. by subst r.
Qed.

(** C10: a line that is empty or made of white space only is skipped:
    the world after it is the world before it, store, console and clock,
    whatever [JSON.parse] would have said of it. *)
Theorem blank_line_is_skipped (m : jsstring) (w : world) :
  Forall (fun c => is_white_space c = true) m →
  handle_message m w = (Normal tt, w).
Proof.
  intros Hm. unfold handle_message. by rewrite trim_blank, bool_decide_true.
Qed.

(** ** Live prices *)


(** ** The symbol catalog *)

(** A catalog message that comes after clean lines: when its [symbols]
    is an array, the stored catalog becomes that array and nothing else
    in the store changes; when it is anything else, or is not there, the
    call completes normally and leaves the store and the console exactly
    as they were. *)
Lemma catalog_after_clean_lines (lines : list jsstring)
    (d symbols : jsvalue) :
  clean lines = true → catalog_update d symbols →
  let w := after_lines lines initial_world in
  let w' := (processIncomingData d w).2 in
  (isArray symbols = true →
     dataStore w' = assign_symbolList symbols (dataStore w)
     /\ symbolList (dataStore w') = symbols)
  /\ (isArray symbols = false →
        (processIncomingData d w).1 = Normal tt
        /\ dataStore w' = dataStore w
        /\ console w' = console w).
Proof.
  intros _ Hd. cbn zeta. rewrite (processIncomingData_catalog _ _ _ Hd).
  split; intros Harr; destruct symbols; try discriminate; done.
Qed.

(** ** Reading candles *)

Lemma slice_start_tail (len : nat) (L : Z) :
  (0 < L)%Z → slice_start len (- L) = (len - Z.to_nat L)%nat.
Proof.
  intros HL. unfold slice_start.
  destruct (Z.ltb_spec (- L) 0); lia.
Qed.

Lemma api_ohlcv_limit (ds : DataStore) (symbol timeframe : jsstring)
    (limit_query : option jsstring) (L : Z) (cs : list jsvalue) :
  series ds (toUpperCase symbol) timeframe = Some (Arr cs) →
  parseInt limit_query = Some L → (0 < L)%Z →
  api_ohlcv symbol timeframe limit_query ds
  = res_json (mkOhlcvBody (toUpperCase symbol) timeframe
                (Nat.min (Z.to_nat L) (length cs))
                (Arr (drop (length cs - Z.to_nat L) cs))).
Proof.
  intros Hs Hq HL.
  unfold api_ohlcv. rewrite Hq.
  destruct (Z.eqb_spec L 0); [lia|].
  unfold series in Hs.
  destruct (ohlcvData ds !! toUpperCase symbol) as [tfs|]; [|done].
  simpl in Hs. rewrite Hs. simpl.
  rewrite slice_start_tail by done. do 2 f_equal.
  rewrite length_drop. lia.
Qed.

(** C6: with a positive limit L, [GET /api/ohlcv] answers with the stored
    sequence of N candles without its first N - L, that is its last
    min(L, N) candles in their order, never its head and never an error;
    with [limit=1000] on fewer than 1000 candles the answer is all of
    them, and with [limit=5] on five candles or more, the last five. *)
Theorem api_ohlcv_tail (ds : DataStore) (symbol timeframe : jsstring)
    (limit_query : option jsstring) (L : Z) (cs : list jsvalue) :
  series ds (toUpperCase symbol) timeframe = Some (Arr cs) →
  parseInt limit_query = Some L → (0 < L)%Z →
  let tail := drop (length cs - Z.to_nat L) cs in
  let answer n candles :=
    res_json (mkOhlcvBody (toUpperCase symbol) timeframe n (Arr candles)) in
  api_ohlcv symbol timeframe limit_query ds
  = answer (Nat.min (Z.to_nat L) (length cs)) tail
  /\ cs = take (length cs - Z.to_nat L) cs ++ tail
  /\ length tail = Nat.min (Z.to_nat L) (length cs)
  /\ ((length cs < 1000)%nat →
      api_ohlcv symbol timeframe (Some (lit "1000")) ds
      = answer (length cs) cs)
  /\ ((5 <= length cs)%nat →
      api_ohlcv symbol timeframe (Some (lit "5")) ds
      = answer 5%nat (drop (length cs - 5) cs)).
Proof.
  intros Hs Hq HL tail answer.
  split; [|split; [|split; [|split]]].
  - by apply api_ohlcv_limit.
  - unfold tail. by rewrite take_drop.
  - unfold tail. rewrite length_drop. lia.
  - intros Hlt.
    rewrite (api_ohlcv_limit ds symbol timeframe _ 1000 cs) by done.
    unfold answer.
    replace (length cs - Z.to_nat 1000)%nat with 0%nat by lia.
    by replace (Nat.min (Z.to_nat 1000) (length cs)) with (length cs) by lia.
  - intros Hle.
    rewrite (api_ohlcv_limit ds symbol timeframe _ 5 cs) by done.
    unfold answer.
    by replace (Nat.min (Z.to_nat 5) (length cs)) with 5%nat by lia.
Qed.

(** ** The casing of symbols *)

Lemma toUpperCase_eurusd :
  toUpperCase (lit "eurusd") = lit "EURUSD"
  /\ toUpperCase (lit "EURUSD") = lit "EURUSD".
Proof.
  split; rewrite toUpperCase_ascii; try (vm_compute; reflexivity);
    repeat constructor.
Qed.

(** The handlers see the requested symbol through [toUpperCase] only. *)
Lemma api_symbol_normalized (ds : DataStore) (s s' timeframe : jsstring) q :
  toUpperCase s = toUpperCase s' →
  api_price s ds = api_price s' ds
  /\ api_ohlcv s timeframe q ds = api_ohlcv s' timeframe q ds
  /\ api_timeframes s ds = api_timeframes s' ds.
Proof.
  intros E. unfold api_price, api_ohlcv, api_timeframes. by rewrite E.
Qed.

(** C9, as the program has it: the read handlers look the requested
    symbol up under its upper-case form and under nothing else, so that
    [eurusd] and [EURUSD] get the same answer; after clean lines, an
    accepted live price whose key is not [__proto__] is stored under its
    key as received; when that key is not its own upper-case form,
    [GET /api/price] for that very key answers what it answered before
    the message came, which is 404 when the store held no price under
    the upper-case key. *)
Theorem live_price_casing (lines : list jsstring) (d : jsvalue)
    (key : jsstring) :
  clean lines = true →
  live_price_update d key → key ≠ lit "__proto__" →
  toUpperCase key ≠ key →
  let w := after_lines lines initial_world in
  let ds := dataStore w in
  let ds' := dataStore (processIncomingData d w).2 in
  livePrices ds' !! key = Some (stamp d (toISOString (clock w)))
  /\ api_price key ds' = api_price key ds
  /\ (livePrices ds !! toUpperCase key = None →
      api_price key ds'
      = res_404 (lit "No price data available for " ++ toUpperCase key))
  /\ (forall (s s' timeframe : jsstring) q (store : DataStore),
        toUpperCase s = toUpperCase s' →
        api_price s store = api_price s' store
        /\ api_ohlcv s timeframe q store = api_ohlcv s' timeframe q store
        /\ api_timeframes s store = api_timeframes s' store)
  /\ (forall store : DataStore,
        api_price (lit "eurusd") store = api_price (lit "EURUSD") store).
Proof.
  intros _ Hd _ Hkey. cbn zeta.
  generalize (after_lines lines initial_world). intros w.
  rewrite (processIncomingData_live_price _ _ _ Hd). simpl.
  assert (api_price key
            (assign_livePrice key (stamp d (toISOString (clock w)))
               (dataStore w))
          = api_price key (dataStore w)) as Hsame.
  { unfold api_price. simpl. by rewrite lookup_insert_ne. }
  split; [by rewrite lookup_insert_eq|].
  split; [done|]. split.
  - intros Hnone. rewrite Hsame. unfold api_price. by rewrite Hnone.
  - split.
    + intros. by apply api_symbol_normalized.
    + intros store. apply (api_symbol_normalized store _ _ []  None).
      destruct toUpperCase_eurusd as [-> ->]. done.
Qed.

(** ** Candle series *)

Lemma series_assign_livePrice ds key v ks kt :
  series (assign_livePrice key v ds) ks kt = series ds ks kt.
Proof. done. Qed.

Lemma series_assign_symbolList ds v ks kt :
  series (assign_symbolList v ds) ks kt = series ds ks kt.
Proof. done. Qed.

Lemma series_assign_symbol ds ks0 tfs ks kt :
  series (assign_symbol ks0 tfs ds) ks kt
  = if decide (ks0 = ks) then tfs !! kt else series ds ks kt.
Proof.
  unfold series, assign_symbol. simpl. rewrite lookup_insert.
  by case_decide.
Qed.

(** Writing one entry leaves the other entries as they were. *)
Lemma series_assign_entry ds ks0 kt0 c ks kt :
  series
    (assign_symbol ks0 (<[kt0 := c]> (default ∅ (ohlcvData ds !! ks0))) ds)
    ks kt
  = if decide (ks0 = ks /\ kt0 = kt) then Some c else series ds ks kt.
Proof.
  rewrite series_assign_symbol.
  destruct (decide (ks0 = ks)) as [->|Hks].
  - rewrite lookup_insert. destruct (decide (kt0 = kt)) as [->|Hkt].
    + by rewrite decide_True.
    + rewrite decide_False by (intros []; congruence).
      unfold series. by destruct (ohlcvData ds !! ks).
  - by rewrite decide_False by (intros []; congruence).
Qed.

(** One message changes at most the entry of its own keys, and only to
    what its [candles] property holds. *)
Lemma processIncomingData_series d w ks kt v :
  series (dataStore (processIncomingData d w).2) ks kt = Some v →
  series (dataStore w) ks kt = Some v \/ ohlcv_update d ks kt v.
Proof.
  destruct (GetV d (lit "type")) as [ty|e] eqn:Hty.
  2:{ unfold processIncomingData. js_unfold. rewrite Hty. simpl. auto. }
  destruct (is_string ty (lit "live_price")) eqn:E1.
  { apply is_string_true in E1 as ->.
    destruct (GetV_type_record _ _ Hty) as [props ->].
    unfold processIncomingData. js_unfold. rewrite Hty. eval_switch.
    cbn iota. cbn [GetV SetV].
    destruct (ToBoolean _); cbn; [|auto].
    destruct (ToString _); cbn; auto. }
  destruct (is_string ty (lit "ohlcv")) eqn:E2.
  { apply is_string_true in E2 as ->.
    destruct (GetV_type_record _ _ Hty) as [props ->].
    destruct (GetV (Obj props) (lit "symbol")) as [symbol|] eqn:Hsym;
      [|done].
    destruct (GetV (Obj props) (lit "timeframe")) as [timeframe|] eqn:Htf;
      [|done].
    destruct (GetV (Obj props) (lit "candles")) as [c|] eqn:Hc; [|done].
    destruct (ToBoolean symbol) eqn:Hs.
    2:{ unfold processIncomingData. js_unfold. rewrite Hty. eval_switch.
        cbn iota. rewrite Hsym, Hs. cbn. auto. }
    destruct (ToBoolean timeframe) eqn:Ht.
    2:{ unfold processIncomingData. js_unfold. rewrite Hty. eval_switch.
        cbn iota. rewrite Hsym, Hs. cbn iota. rewrite Htf, Ht. cbn. auto. }
    destruct (ToString symbol) as [ks0|] eqn:Hks.
    2:{ unfold processIncomingData. js_unfold. rewrite Hty. eval_switch.
        cbn iota. rewrite Hsym, Hs. cbn iota. rewrite Htf, Ht. cbn [negb orb].
        cbn iota. rewrite Hks. cbn. auto. }
    destruct (ToString timeframe) as [kt0|] eqn:Hkt.
    2:{ unfold processIncomingData. js_unfold. rewrite Hty. eval_switch.
        cbn iota. rewrite Hsym, Hs. cbn iota. rewrite Htf, Ht. cbn [negb orb].
        cbn iota. rewrite Hks. cbn. rewrite Hkt.
        destruct (ohlcvData (dataStore w) !! ks0) eqn:E; cbn; [auto|].
        rewrite series_assign_symbol. case_decide; [done|auto]. }
    assert (ohlcv_update (Obj props) ks0 kt0 c) as Hup.
    { split; [done|]. split; [by exists symbol|]. split; [by exists timeframe|done]. }
    rewrite (processIncomingData_ohlcv _ _ _ _ _ Hup).
    intros Hv.
    assert (series (assign_symbol ks0
               (<[kt0 := c]> (default ∅ (ohlcvData (dataStore w) !! ks0)))
               (dataStore w)) ks kt = Some v) as Hv'.
    { destruct (GetV c (lit "length")) as [len|]; [|done].
      by destruct (ToString len). }
    rewrite series_assign_entry in Hv'. case_decide as Hk; [|auto].
    destruct Hk as [<- <-]. inversion Hv'; subst. auto. }
  unfold processIncomingData. js_unfold. rewrite Hty. cbn iota.
  rewrite E1, E2.
  destruct (is_string ty (lit "symbol_list")); cbn; [|auto].
  destruct (GetV d (lit "symbols")) as [symbols|]; cbn; [|auto].
  destruct symbols; cbn; auto.
Qed.

Lemma after_lines_cons m rest w :
  after_lines (m :: rest) w = after_lines rest (handle_message m w).2.
Proof.
  unfold after_lines. simpl. unfold mbind, js_bind.
  pose proof (handle_message_normal m w) as Hn.
  destruct (handle_message m w) as [r w']. simpl in *. by subst r.
Qed.

Lemma handle_message_series m w ks kt v :
  series (dataStore (handle_message m w).2) ks kt = Some v →
  series (dataStore w) ks kt = Some v
  \/ exists d, JSON_parse m = Some d /\ ohlcv_update d ks kt v.
Proof.
  destruct (decide (trim m = [])) as [Hm|Hm].
  { unfold handle_message. rewrite bool_decide_true by done. auto. }
  destruct (JSON_parse m) as [d|] eqn:Hd.
  - destruct (handle_message_valid m d w Hm Hd) as [-> _].
    intros [Hv|Hv]%processIncomingData_series; eauto.
  - unfold handle_message. rewrite bool_decide_false, Hd by done. auto.
Qed.

(** Every entry of the store is there since the start or comes whole from
    one line that went through the loop. *)
Lemma after_lines_series lines w ks kt v :
  series (dataStore (after_lines lines w)) ks kt = Some v →
  series (dataStore w) ks kt = Some v
  \/ exists line d,
       line ∈ lines /\ JSON_parse line = Some d /\ ohlcv_update d ks kt v.
Proof.
  revert w. induction lines as [|m rest IH]; intros w; [auto|].
  rewrite after_lines_cons. intros [Hv|(line & d & Hin & Hd & Hup)]%IH.
  - apply handle_message_series in Hv as [Hv|(d & Hd & Hup)]; [auto|].
    right. exists m, d. split; [apply list_elem_of_here|done].
  - right. exists line, d. split; [by apply list_elem_of_further|done].
Qed.

(** A batch with an array of candles that comes after clean lines, for a
    symbol that is no inherited name and a timeframe other than
    [__proto__], is stored whole under its symbol and timeframe, whatever
    the entry held before: the new sequence is the one of the message,
    nothing of the old one is kept or merged, and the other entries are
    not touched. *)
Lemma batch_after_clean_lines (lines : list jsstring) (d : jsvalue)
    (ks kt : jsstring) (cs : list jsvalue) :
  clean lines = true →
  ohlcv_update d ks kt (Arr cs) →
  ks ∉ inherited_names → kt ≠ lit "__proto__" →
  let w := after_lines lines initial_world in
  let w' := (processIncomingData d w).2 in
  (processIncomingData d w).1 = Normal tt
  /\ series (dataStore w') ks kt = Some (Arr cs)
  /\ (forall ks' kt',
        ¬ (ks = ks' /\ kt = kt') →
        series (dataStore w') ks' kt' = series (dataStore w) ks' kt').
Proof.
  intros _ Hd _ _. cbn zeta.
  rewrite (processIncomingData_ohlcv _ _ _ _ _ Hd).
  cbn [GetV]. rewrite decide_True by done. cbn [ToString fst snd dataStore].
  split; [done|]. split.
  - by rewrite series_assign_entry, decide_True.
  - intros ks' kt' Hne. by rewrite series_assign_entry, decide_False.
Qed.

(** After clean lines every entry of the store is what the [candles]
    property of one [ohlcv] message of those lines held, be it an array
    or not. *)
Lemma entry_after_clean_lines (lines : list jsstring) (ks kt : jsstring)
    (v : jsvalue) :
  clean lines = true →
  series (dataStore (after_lines lines initial_world)) ks kt = Some v →
  exists line d,
    line ∈ lines /\ JSON_parse line = Some d /\ ohlcv_update d ks kt v.
Proof.
  intros _ [Hv|Hv]%after_lines_series; [|done].
  unfold series in Hv. simpl in Hv. by rewrite lookup_empty in Hv.
Qed.

(** A batch without [candles] overwrites the entry of its keys with
    [undefined] before the length it cannot read makes it throw. *)
Lemma processIncomingData_ohlcv_no_candles w d ks kt :
  ohlcv_update d ks kt Undefined →
  processIncomingData d w
  = (Throw TypeError,
     mkWorld
       (assign_symbol ks
          (<[kt := Undefined]> (default ∅ (ohlcvData (dataStore w) !! ks)))
          (dataStore w))
       (console w) (S (clock w))).
Proof. intros Hd. by rewrite (processIncomingData_ohlcv _ _ _ _ _ Hd). Qed.

End Properties.

(** ** The program on the sample runtime *)

Section Runs.

Import Sample.

(** C3, at the input where the program departs from it: after a batch
    for EURUSD M1, a well-formed [ohlcv] message for the same keys without
    [candles] is reported on the console as a TypeError, but the stored
    sequence is gone: the entry holds [undefined] and [GET /api/ohlcv]
    answers 404. *)
Theorem ohlcv_without_candles_erases_series :
  let batch :=
    Sample.bytes
      "{'type':'ohlcv','symbol':'EURUSD','timeframe':'M1','candles':[{'o':1,'h':2,'l':0.5,'c':1.5}]}"
      ++ [x0a] in
  let broken :=
    Sample.bytes "{'type':'ohlcv','symbol':'EURUSD','timeframe':'M1'}" in
  let w1 := (on_data batch (Some []) initial_world).2 in
  let w2 := (on_data (broken ++ [x0a]) (Some []) w1).2 in
  series (dataStore w1) EURUSD M1
  = Some (Sample.message "[{'o':1,'h':2,'l':0.5,'c':1.5}]")
  /\ ohlcv_update (Sample.message "{'type':'ohlcv','symbol':'EURUSD','timeframe':'M1'}")
       EURUSD M1 Undefined
  /\ series (dataStore w2) EURUSD M1 = Some Undefined
  /\ api_ohlcv EURUSD M1 None (dataStore w2)
     = res_404 (lit "No OHLCV data available for EURUSD on M1 timeframe")
  /\ last (console w2)
     = Some (console_error
               [text "Error processing data:"; message_of TypeError;
                text "Raw data:"; shown (Str (Buffer_toString broken))]).
Proof.
  cbn zeta. split; [|split; [|split; [|split]]].
  - vm_compute. reflexivity.
  - split; [vm_compute; reflexivity|]. split; [|split].
    + exists (Str EURUSD). repeat split; vm_compute; reflexivity.
    + exists (Str M1). repeat split; vm_compute; reflexivity.
    + vm_compute. reflexivity.
  - vm_compute. reflexivity.
  - vm_compute. reflexivity.
  - vm_compute. reflexivity.
Qed.

(** C5, at the input where the program departs from it: after a batch of
    two candles for EURUSD M1, the line of a well-formed [ohlcv] message
    for the same keys without [candles] leaves in the entry neither the
    sequence of that batch nor any sequence at all: the entry holds
    [undefined], which no batch of the lines had as its candles, and
    [GET /api/timeframes] still lists the timeframe. *)
Theorem candle_entry_without_a_batch :
  let valid :=
    line "{'type':'ohlcv','symbol':'EURUSD','timeframe':'M1','candles':[{'c':1},{'c':2}]}" in
  let broken := line "{'type':'ohlcv','symbol':'EURUSD','timeframe':'M1'}" in
  let w1 := after_lines [valid] initial_world in
  let w2 := after_lines [valid; broken] initial_world in
  clean [valid; broken] = true
  /\ series (dataStore w1) EURUSD M1 = Some (message "[{'c':1},{'c':2}]")
  /\ series (dataStore w2) EURUSD M1 = Some Undefined
  /\ (forall cs, series (dataStore w2) EURUSD M1 ≠ Some (Arr cs))
  /\ (forall l d cs,
        l ∈ [valid; broken] → JSON_parse l = Some d →
        GetV d (lit "candles") = Normal (Arr cs) →
        l = valid /\ Arr cs = message "[{'c':1},{'c':2}]")
  /\ api_timeframes EURUSD (dataStore w2) = res_json (EURUSD, {[ M1 ]}).
Proof.
  cbn zeta. split; [|split; [|split; [|split; [|split]]]].
  - vm_compute. reflexivity.
  - vm_compute. reflexivity.
  - vm_compute. reflexivity.
  - intros cs E. vm_compute in E. discriminate.
  - intros l d cs Hl Hd Hcs.
    apply elem_of_cons in Hl as [->|Hl].
    + split; [done|]. vm_compute in Hd. injection Hd as <-.
      vm_compute in Hcs. injection Hcs as <-. vm_compute. reflexivity.
    + apply elem_of_cons in Hl as [->|Hl]; [|by apply elem_of_nil in Hl].
      vm_compute in Hd. injection Hd as <-.
      vm_compute in Hcs. discriminate.
  - vm_compute. reflexivity.
Qed.

(** C7, at the input where the program departs from it: an accepted
    batch leaves in the store the candles of the message and nothing
    else, whatever the clock reads: [receivedAt] was set on the message
    record, which is not what is stored, and the answer of
    [GET /api/ohlcv] has no such field. *)
Theorem candle_series_has_no_receivedAt (k : nat) :
  let batch :=
    Sample.line
      "{'type':'ohlcv','symbol':'EURUSD','timeframe':'M1','candles':[{'o':1,'h':2,'l':0.5,'c':1.5}]}" in
  let candles := Sample.message "[{'o':1,'h':2,'l':0.5,'c':1.5}]" in
  let w := mkWorld empty_store [] k in
  handle_message batch w
  = (Normal tt,
     mkWorld (assign_symbol EURUSD {[ M1 := candles ]} empty_store)
       [received_candles (lit "1") EURUSD M1] (S k))
  /\ api_ohlcv EURUSD M1 None (dataStore (handle_message batch w).2)
     = res_json (mkOhlcvBody EURUSD M1 1 candles).
Proof.
  cbn zeta. split.
  - vm_compute. reflexivity.
  - vm_compute. reflexivity.
Qed.

(** A live price and a batch in one stream, cut anywhere: the price and
    the candles are found by the read handlers. *)
Example two_lines_cut_anywhere (n : nat) :
  let stream :=
    bytes "{'type':'live_price','symbol':'EURUSD','bid':1.1}" ++ [x0a]
      ++ bytes "{'type':'ohlcv','symbol':'EURUSD','timeframe':'M1','candles':[{'o':1,'h':2,'l':0.5,'c':1.5}]}"
      ++ [x0a] in
  let w := (on_data_all [take n stream; drop n stream] (Some []) initial_world).2 in
  (exists price,
     api_price EURUSD (dataStore w) = res_json price
     /\ GetV price (lit "bid") = Normal (message "1.1"))
  /\ api_ohlcv EURUSD M1 (Some (lit "100")) (dataStore w)
     = res_json (mkOhlcvBody EURUSD M1 1
                   (message "[{'o':1,'h':2,'l':0.5,'c':1.5}]")).
Proof.
  cbn zeta. rewrite on_data_all_ascii.
  2:{ cbn [concat]. rewrite app_nil_r, take_drop. vm_compute.
      repeat constructor. }
  cbn [concat]. rewrite app_nil_r, take_drop. split.
  - eexists. split; vm_compute; reflexivity.
  - vm_compute. reflexivity.
Qed.

(** C9 as stated fails: a live price for [eurusd] is accepted and stored
    under that key, which is not its upper-case form, and yet
    [GET /api/price/eurusd] does not answer 404: it answers the price
    that came earlier for [EURUSD]. *)
Lemma lowercase_price_not_404 :
  let d1 := message "{'type':'live_price','symbol':'EURUSD','bid':1}" in
  let d2 := message "{'type':'live_price','symbol':'eurusd','bid':2}" in
  let w1 := (processIncomingData d1 initial_world).2 in
  let ds := dataStore (processIncomingData d2 w1).2 in
  live_price_update d2 (lit "eurusd")
  /\ toUpperCase (lit "eurusd") ≠ lit "eurusd"
  /\ livePrices ds !! lit "eurusd" = Some (stamp d2 (toISOString 1))
  /\ api_price (lit "eurusd") ds = res_json (stamp d1 (toISOString 0))
  /\ ¬ (exists e, api_price (lit "eurusd") ds = res_404 e).
Proof.
  cbn zeta. split; [|split; [|split; [|split]]].
  - split; [vm_compute; reflexivity|].
    exists (Str (lit "eurusd")). repeat split; vm_compute; reflexivity.
  - vm_compute. discriminate.
  - vm_compute. reflexivity.
  - vm_compute. reflexivity.
  - intros [e He]. vm_compute in He. discriminate.
Qed.

(** *** The theorems at concrete inputs *)

Lemma unparseable_line_witness :
  let catalog := "{'type':'symbol_list','symbols':['EURUSD','GBPUSD']}" in
  JSON_parse (lit "not json") = None
  /\ dataStore (after_lines [lit "not json"; line catalog] initial_world)
     = dataStore (processIncomingData (message catalog) initial_world).2.
Proof.
  cbn zeta. split; [vm_compute; reflexivity|].
  apply (unparseable_line_is_isolated (lit "not json") initial_world);
    vm_compute; [reflexivity | discriminate | reflexivity].
Defined.

Lemma blank_line_witness :
  Forall (fun c => is_white_space c = true) [0x20; 0x09; 0x0D]
  /\ handle_message [0x20; 0x09; 0x0D] initial_world
     = (Normal tt, initial_world).
Proof.
  assert (Forall (fun c => is_white_space c = true) [0x20; 0x09; 0x0D]) as Hb
    by (repeat constructor).
  split; [exact Hb|]. exact (blank_line_is_skipped _ initial_world Hb).
Defined.


Lemma api_ohlcv_tail_witness :
  let batch :=
    message "{'type':'ohlcv','symbol':'EURUSD','timeframe':'M1','candles':[1,2,3,4,5,6,7]}" in
  let ds := dataStore (processIncomingData batch initial_world).2 in
  let cs := [message "1"; message "2"; message "3"; message "4";
             message "5"; message "6"; message "7"] in
  series ds (toUpperCase (lit "eurusd")) M1 = Some (Arr cs)
  /\ parseInt (Some (lit "5")) = Some 5%Z
  /\ (0 < 5)%Z
  /\ api_ohlcv (lit "eurusd") M1 (Some (lit "5")) ds
     = res_json (mkOhlcvBody EURUSD M1 5
                   (Arr [message "3"; message "4"; message "5";
                         message "6"; message "7"])).
Proof.
  cbn zeta.
  assert (series
            (dataStore
               (processIncomingData
                  (message "{'type':'ohlcv','symbol':'EURUSD','timeframe':'M1','candles':[1,2,3,4,5,6,7]}")
                  initial_world).2)
            (toUpperCase (lit "eurusd")) M1
          = Some (Arr [message "1"; message "2"; message "3"; message "4";
                       message "5"; message "6"; message "7"])) as Hs
    by (vm_compute; reflexivity).
  split; [exact Hs|]. split; [vm_compute; reflexivity|]. split; [lia|].
  destruct (api_ohlcv_tail _ (lit "eurusd") M1 (Some (lit "5")) 5 _ Hs
              eq_refl eq_refl) as [E _].
  exact E.
Defined.

Lemma live_price_casing_witness :
  let lines :=
    [line "{'type':'ohlcv','symbol':'EURUSD','timeframe':'M1','candles':[1,2]}"] in
  let d := message "{'type':'live_price','symbol':'eurusd','bid':2}" in
  let w := after_lines lines initial_world in
  let ds' := dataStore (processIncomingData d w).2 in
  clean lines = true
  /\ live_price_update d (lit "eurusd")
  /\ lit "eurusd" ≠ lit "__proto__"
  /\ toUpperCase (lit "eurusd") ≠ lit "eurusd"
  /\ livePrices ds' !! lit "eurusd" = Some (stamp d (toISOString (clock w)))
  /\ api_price (lit "eurusd") ds'
     = res_404 (lit "No price data available for EURUSD").
Proof.
  cbn zeta.
  assert (clean
            [line "{'type':'ohlcv','symbol':'EURUSD','timeframe':'M1','candles':[1,2]}"]
          = true) as Hc by (vm_compute; reflexivity).
  assert (live_price_update
            (message "{'type':'live_price','symbol':'eurusd','bid':2}")
            (lit "eurusd")) as Hd.
  { split; [vm_compute; reflexivity|].
    exists (Str (lit "eurusd")). repeat split; vm_compute; reflexivity. }
  assert (lit "eurusd" ≠ lit "__proto__") as Hk
    by (vm_compute; discriminate).
  assert (toUpperCase (lit "eurusd") ≠ lit "eurusd") as Hne
    by (vm_compute; discriminate).
  split; [exact Hc|]. split; [exact Hd|]. split; [exact Hk|].
  split; [exact Hne|].
  destruct (live_price_casing _ _ _ Hc Hd Hk Hne) as (Hs & _ & H404 & _).
  split; [exact Hs|]. apply H404. vm_compute. reflexivity.
Defined.

End Runs.

(** * Further properties of the program *)

(** ** The decoder of frames *)

(** Joining the pieces of a text, a newline after each but the last, gives
    the text back. *)
Lemma String_split_join (s : jsstring) :
  concat (terminated <$> removelast (String_split LF s)) ++ residual LF s = s.
Proof.
  unfold residual. induction s as [|c s IH]; [done|].
  cbn [String_split]. pose proof (String_split_nonempty LF s) as Hne.
  destruct (N.eqb_spec c LF) as [->|Hc].
  - rewrite removelast_cons, last_cons_ne by done.
    cbn [fmap list_fmap concat]. unfold terminated at 1. simpl.
    by rewrite IH.
  - destruct (String_split LF s) as [|p [|p' ps]]; [done| |].
    + simpl in *. by rewrite IH.
    + rewrite removelast_cons, last_cons_ne by done.
      rewrite removelast_cons, last_cons_ne in IH by done.
      cbn [fmap list_fmap concat] in *. unfold terminated at 1.
      unfold terminated at 1 in IH. simpl. f_equal. exact IH.
Qed.

(** X1: a data event loses nothing and invents nothing: the messages it
    completes, each followed by its newline, and then the buffer it keeps,
    spell the former buffer followed by the text of the chunk. *)
Theorem feed_is_lossless (b : jsstring) (data : list byte) :
  exists rest,
    (feed (Some b) data).2 = Some rest
    /\ concat (terminated <$> (feed (Some b) data).1) ++ rest
       = b ++ Buffer_toString data.
Proof.
  rewrite feed_Some. eexists. split; [done|]. apply String_split_join.
Qed.

(** X2: whatever the buffer was, even [undefined], after a data event it is
    a string, and neither it nor any completed message holds a newline. *)
Theorem feed_pieces_have_no_newline (buffer : option jsstring)
    (data : list byte) :
  (exists rest, (feed buffer data).2 = Some rest /\ LF ∉ rest)
  /\ Forall (fun m => LF ∉ m) (feed buffer data).1.
Proof.
  unfold feed, pop. cbn [fst snd].
  set (t := append_buffer buffer (Buffer_toString data)).
  split.
  - exists (residual LF t). split; [apply last_split | apply residual_no_sep].
  - pose proof (String_split_pieces LF t) as Hp.
    pose proof (last_split LF t) as Hl. apply last_Some in Hl as [l' Hl].
    rewrite Hl in Hp |- *. rewrite removelast_last.
    by apply Forall_app in Hp as [Hp _].
Qed.

Section Further.
Context `{Runtime}.

Ltac eval_switch :=
  repeat match goal with
    | |- context [is_string (Str ?a) ?b] =>
        let r := eval vm_compute in (is_string (Str a) b) in
        change (is_string (Str a) b) with r
    end.

Ltac js_unfold :=
  unfold set_livePrice, get_symbol, set_symbol, get_series, set_series,
    set_symbolList, get_store, set_store, write_console, Date_now,
    try_catch, mbind, js_bind, mret, js_ret, throw, lift, ToPropertyKey in *.

(** ** The socket *)

(** X3: a chunk whose text holds no newline completes no message: the
    text joins the buffer, and the store, the console and the clock are
    not touched. *)
Theorem chunk_without_newline_is_buffered (b : jsstring) (data : list byte)
    (w : world) :
  LF ∉ b → LF ∉ Buffer_toString data →
  on_data data (Some b) w = (Normal (Some (b ++ Buffer_toString data)), w).
Proof.
  intros Hb Hd. unfold on_data. rewrite feed_Some.
  assert (LF ∉ b ++ Buffer_toString data) as Hn
    by (by apply not_elem_of_app).
  unfold residual. rewrite (String_split_no_sep _ _ Hn). done.
Qed.

(** X4: the data events of a connection amount to one pass of the loop
    over the lines of the whole text received, in order; what follows the
    last newline waits in the buffer. *)
Theorem data_events_are_the_lines_of_the_text (b : jsstring)
    (chunks : list (list byte)) (w : world) :
  LF ∉ b →
  let received := b ++ concat (Buffer_toString <$> chunks) in
  on_data_all chunks (Some b) w
  = (Normal (Some (residual LF received)),
     after_lines (removelast (String_split LF received)) w).
Proof.
  intros Hb received. by rewrite on_data_all_lines, feed_all_text.
Qed.

(** X5: two ways of cutting the same ASCII stream into data events leave
    the connection with the same buffer and the process in the same
    world. *)
Theorem ascii_chunking_is_invisible (chunks1 chunks2 : list (list byte))
    (w : world) :
  is_ascii (concat chunks1) → concat chunks1 = concat chunks2 →
  on_data_all chunks1 (Some []) w = on_data_all chunks2 (Some []) w.
Proof.
  intros Ha E. rewrite !on_data_all_lines.
  rewrite (feed_all_ascii chunks1), (feed_all_ascii chunks2), E;
    [done | by rewrite <- E | done].
Qed.

Lemma on_event_normal e buffer w :
  exists buffer', (on_event e buffer w).1 = Normal buffer'.
Proof.
  destruct e as [data| |message]; [apply on_data_normal | by eexists..].
Qed.

(** X6: no event of a socket makes its handler throw, whatever bytes
    arrive and whatever the lines hold: every exception of the parser or
    of [processIncomingData] is caught in the loop. *)
Theorem socket_events_never_throw (events : list socket_event)
    (buffer : option jsstring) (w : world) :
  exists buffer', (on_events events buffer w).1 = Normal buffer'.
Proof.
  revert buffer w. induction events as [|e rest IH]; intros buffer w.
  - by eexists.
  - cbn [on_events]. unfold mbind, js_bind.
    destruct (on_event_normal e buffer w) as [b1 E1].
    destruct (on_event e buffer w) as [r w1]. simpl in E1. subst r.
    apply IH.
Qed.

(** Worlds that differ by their console only are taken by a blind
    statement to worlds that differ by their console only. *)
Lemma blind_same {A} (m : js A) ds c1 c2 k :
  blind m →
  (m (mkWorld ds c1 k)).1 = (m (mkWorld ds c2 k)).1
  /\ dataStore (m (mkWorld ds c1 k)).2 = dataStore (m (mkWorld ds c2 k)).2
  /\ clock (m (mkWorld ds c1 k)).2 = clock (m (mkWorld ds c2 k)).2.
Proof.
  intros Hm. destruct (Hm ds k) as (r & ds' & es & k' & E).
  by rewrite !E.
Qed.

Lemma blind_on_data data buffer : blind (on_data data buffer).
Proof.
  unfold on_data. destruct (feed buffer data) as [messages buffer'].
  apply blind_bind; [|intros _; apply blind_ret].
  apply blind_for_of, blind_handle_message.
Qed.

Lemma blind_on_data_all chunks buffer : blind (on_data_all chunks buffer).
Proof.
  revert buffer. induction chunks as [|data rest IH]; intros buffer.
  - apply blind_ret.
  - cbn [on_data_all]. apply blind_bind; [apply blind_on_data | apply IH].
Qed.

(** The end and error events of a socket only write to the console. *)
Lemma on_events_data events buffer w c :
  let r1 := on_events events buffer w in
  let r2 := on_data_all (chunks_of events) buffer
              (mkWorld (dataStore w) c (clock w)) in
  r1.1 = r2.1 /\ dataStore r1.2 = dataStore r2.2 /\ clock r1.2 = clock r2.2.
Proof.
  revert buffer w c. induction events as [|e rest IH]; intros buffer w c.
  - done.
  - destruct e as [data| |message].
    + cbn [on_events on_event chunks_of omap list_omap on_data_all].
      unfold mbind, js_bind.
      destruct w as [ds c0 k]. cbn [dataStore clock].
      destruct (blind_on_data data buffer ds k) as (r & ds1 & es & k1 & E).
      rewrite !E. destruct r as [b1|e]; [|done].
      apply (IH b1 (mkWorld ds1 (c0 ++ es) k1)).
    + cbn [on_events on_event chunks_of omap list_omap].
      unfold on_end. js_unfold.
      apply (IH buffer
               (mkWorld (dataStore w)
                  (console w ++ [console_log [text "MT5 client disconnected"]])
                  (clock w))).
    + cbn [on_events on_event chunks_of omap list_omap].
      unfold on_error. js_unfold.
      apply (IH buffer
               (mkWorld (dataStore w)
                  (console w
                     ++ [console_error [text "Socket error:";
                                        shown (Str message)]])
                  (clock w))).
Qed.

(** X7: when a client goes, what its buffer holds is dropped: over the
    whole life of a socket the store is the one the loop gives on the
    lines that were ended by a newline, and the text after the last
    newline is never applied, whether the socket ended or failed. *)
Theorem unterminated_text_is_never_applied (events : list socket_event)
    (b : jsstring) (w : world) :
  LF ∉ b →
  let received := b ++ concat (Buffer_toString <$> chunks_of events) in
  dataStore (on_events events (Some b) w).2
  = dataStore (after_lines (removelast (String_split LF received)) w)
  /\ (LF ∉ received →
      dataStore (on_events events (Some b) w).2 = dataStore w).
Proof.
  intros Hb received.
  destruct (on_events_data events (Some b) w (console w)) as (_ & Hs & _).
  assert (mkWorld (dataStore w) (console w) (clock w) = w) as Ew
    by (by destruct w).
  rewrite Ew in Hs. rewrite Hs, on_data_all_lines, feed_all_text by done.
  cbn [fst snd]. split; [done|].
  intros Hr. fold received. by rewrite (String_split_no_sep _ _ Hr).
Qed.

(** ** Messages that are not applied *)

Lemma is_string_false (v : jsvalue) s : v ≠ Str s → is_string v s = false.
Proof.
  intros Hv. destruct v; simpl; try done.
  apply bool_decide_eq_false. congruence.
Qed.

(** X8: after clean lines, a message whose [type] is none of the three
    kinds, or that has no [type] at all (a number, a string, an array),
    changes nothing in the store: it is written to the console with the
    type it had. *)
Theorem unknown_type_is_only_logged (lines : list jsstring)
    (d ty : jsvalue) :
  clean lines = true →
  GetV d (lit "type") = Normal ty →
  ty ≠ Str (lit "live_price") → ty ≠ Str (lit "ohlcv") →
  ty ≠ Str (lit "symbol_list") →
  let w := after_lines lines initial_world in
  processIncomingData d w
  = (Normal tt,
     mkWorld (dataStore w)
       (console w ++ [console_log [text "Unknown data type:"; shown ty]])
       (S (clock w))).
Proof.
  intros _ Hty H1 H2 H3 w. clearbody w.
  unfold processIncomingData. js_unfold.
  rewrite Hty. cbn iota.
  by rewrite !is_string_false.
Qed.

(** X9: the line [null] parses, and reading its [type] throws: the loop
    catches the TypeError and writes it to the console with the line; the
    store is as it was. *)
Theorem null_line_is_caught (m : jsstring) (w : world) :
  trim m ≠ [] → JSON_parse m = Some Null →
  handle_message m w
  = (Normal tt,
     mkWorld (dataStore w)
       (console w
          ++ [console_error [text "Error processing data:";
                             message_of TypeError;
                             text "Raw data:"; shown (Str m)]])
       (S (clock w))).
Proof.
  intros Hm Hd. unfold handle_message.
  rewrite bool_decide_false, Hd by done. reflexivity.
Qed.

(** X10: after clean lines, a live price whose [symbol] is missing or
    falsy (absent, empty, null, false) is refused: the store is as it was
    and the console says so. *)
Theorem live_price_without_symbol_is_refused (lines : list jsstring)
    (d symbol : jsvalue) :
  clean lines = true →
  GetV d (lit "type") = Normal (Str (lit "live_price")) →
  GetV d (lit "symbol") = Normal symbol → ToBoolean symbol = false →
  let w := after_lines lines initial_world in
  processIncomingData d w
  = (Normal tt,
     mkWorld (dataStore w)
       (console w
          ++ [console_error [text "Missing symbol in live price data"]])
       (S (clock w))).
Proof.
  intros _ Hty Hsym Hs w. clearbody w.
  unfold processIncomingData. js_unfold.
  rewrite Hty. eval_switch. cbn iota. by rewrite Hsym, Hs.
Qed.

(** X11: after clean lines, a batch whose [symbol] or [timeframe] is
    missing or falsy is refused before anything is written: the store is
    as it was, whatever [candles] holds, and the console says so. *)
Theorem ohlcv_without_keys_is_refused (lines : list jsstring)
    (d symbol timeframe : jsvalue) :
  clean lines = true →
  GetV d (lit "type") = Normal (Str (lit "ohlcv")) →
  GetV d (lit "symbol") = Normal symbol →
  GetV d (lit "timeframe") = Normal timeframe →
  ToBoolean symbol = false \/ ToBoolean timeframe = false →
  let w := after_lines lines initial_world in
  processIncomingData d w
  = (Normal tt,
     mkWorld (dataStore w)
       (console w
          ++ [console_error
                [text "Missing symbol or timeframe in OHLCV data"]])
       (S (clock w))).
Proof.
  intros _ Hty Hsym Htf Hor w. clearbody w.
  unfold processIncomingData. js_unfold.
  rewrite Hty. eval_switch. cbn iota. rewrite Hsym.
  destruct (ToBoolean symbol) eqn:Hs; cbn iota; [|done].
  rewrite Htf. destruct Hor as [?|Ht]; [done|]. by rewrite Ht.
Qed.

(** X12: after clean lines, a batch whose [timeframe] cannot be made a
    key (a record with a [toString] of its own) and whose symbol is no
    inherited name throws after its symbol was looked up: the message is
    refused, but a symbol the store did not know is now there, with no
    timeframe, and [GET /api/timeframes] for it, which answered 404,
    answers an empty list. *)
Theorem ohlcv_with_unusable_timeframe (lines : list jsstring)
    (d symbol timeframe : jsvalue) (ks : jsstring) (e : exn) :
  clean lines = true →
  GetV d (lit "type") = Normal (Str (lit "ohlcv")) →
  GetV d (lit "symbol") = Normal symbol → ToBoolean symbol = true →
  ToPropertyKey symbol = Normal ks → ks ∉ inherited_names →
  GetV d (lit "timeframe") = Normal timeframe → ToBoolean timeframe = true →
  ToPropertyKey timeframe = Throw e →
  let w := after_lines lines initial_world in
  let ds := dataStore w in
  let ds' :=
    match ohlcvData ds !! ks with
    | Some _ => ds
    | None => assign_symbol ks ∅ ds
    end in
  processIncomingData d w = (Throw e, mkWorld ds' (console w) (S (clock w)))
  /\ (ohlcvData ds !! ks = None → toUpperCase ks = ks →
      api_timeframes ks ds = res_404 (lit "No data available for " ++ ks)
      /\ api_timeframes ks ds' = res_json (ks, ∅)).
Proof.
  intros _ Hty Hsym Hs Hks _ Htf Ht Hkt w. clearbody w.
  intros ds ds'. split.
  - unfold processIncomingData. js_unfold.
    rewrite Hty. eval_switch. cbn iota. rewrite Hsym, Hs. cbn iota.
    rewrite Htf, Ht. cbn [negb orb]. cbn iota. rewrite Hks. cbn.
    rewrite Hkt. unfold ds', ds.
    by destruct (ohlcvData (dataStore w) !! ks).
  - intros Hnone Hup. unfold api_timeframes, ds'. rewrite Hup, Hnone.
    split; [done|]. cbn [assign_symbol ohlcvData].
    by rewrite lookup_insert_eq, dom_empty_L.
Qed.

(** ** What one message can do to the store *)

(** The store after a message is the store before it, or the store with
    one of the three assignments of an accepted message, or, for a batch
    that threw on its timeframe, the store with a new symbol. *)
Lemma processIncomingData_store d w :
  let ds := dataStore w in
  let ds' := dataStore (processIncomingData d w).2 in
  ds' = ds
  \/ (exists key,
        live_price_update d key
        /\ ds' = assign_livePrice key (stamp d (toISOString (clock w))) ds)
  \/ (exists ks, ohlcvData ds !! ks = None /\ ds' = assign_symbol ks ∅ ds)
  \/ (exists ks kt c,
        ohlcv_update d ks kt c
        /\ ds' = assign_symbol ks
                   (<[kt := c]> (default ∅ (ohlcvData ds !! ks))) ds)
  \/ (exists l,
        catalog_update d (Arr l) /\ ds' = assign_symbolList (Arr l) ds).
Proof.
  cbn zeta.
  destruct (GetV d (lit "type")) as [ty|e] eqn:Hty.
  2:{ unfold processIncomingData. js_unfold. rewrite Hty. simpl. auto. }
  destruct (is_string ty (lit "live_price")) eqn:E1.
  { apply is_string_true in E1 as ->.
    destruct (GetV_type_record _ _ Hty) as [props ->].
    destruct (GetV (Obj props) (lit "symbol")) as [symbol|] eqn:Hsym;
      [|done].
    destruct (ToBoolean symbol) eqn:Hs.
    2:{ unfold processIncomingData. js_unfold. rewrite Hty. eval_switch.
        cbn iota. rewrite Hsym, Hs. auto. }
    destruct (ToString symbol) as [key|] eqn:Hkey.
    - assert (live_price_update (Obj props) key) as Hup.
      { split; [done|]. by exists symbol. }
      rewrite (processIncomingData_live_price _ _ _ Hup).
      right; left. eauto.
    - unfold processIncomingData. js_unfold. rewrite Hty. eval_switch.
      cbn iota. rewrite Hsym, Hs. cbn [negb]. cbn iota.
      rewrite GetV_SetV_ne by (vm_compute; discriminate).
      rewrite Hsym, Hkey. auto. }
  destruct (is_string ty (lit "ohlcv")) eqn:E2.
  { apply is_string_true in E2 as ->.
    destruct (GetV_type_record _ _ Hty) as [props ->].
    destruct (GetV (Obj props) (lit "symbol")) as [symbol|] eqn:Hsym;
      [|done].
    destruct (GetV (Obj props) (lit "timeframe")) as [timeframe|] eqn:Htf;
      [|done].
    destruct (GetV (Obj props) (lit "candles")) as [c|] eqn:Hc; [|done].
    destruct (ToBoolean symbol) eqn:Hs.
    2:{ unfold processIncomingData. js_unfold. rewrite Hty. eval_switch.
        cbn iota. rewrite Hsym, Hs. cbn. auto. }
    destruct (ToBoolean timeframe) eqn:Ht.
    2:{ unfold processIncomingData. js_unfold. rewrite Hty. eval_switch.
        cbn iota. rewrite Hsym, Hs. cbn iota. rewrite Htf, Ht. cbn. auto. }
    destruct (ToString symbol) as [ks0|] eqn:Hks.
    2:{ unfold processIncomingData. js_unfold. rewrite Hty. eval_switch.
        cbn iota. rewrite Hsym, Hs. cbn iota. rewrite Htf, Ht. cbn [negb orb].
        cbn iota. rewrite Hks. cbn. auto. }
    destruct (ToString timeframe) as [kt0|] eqn:Hkt.
    2:{ unfold processIncomingData. js_unfold. rewrite Hty. eval_switch.
        cbn iota. rewrite Hsym, Hs. cbn iota. rewrite Htf, Ht. cbn [negb orb].
        cbn iota. rewrite Hks. cbn. rewrite Hkt.
        destruct (ohlcvData (dataStore w) !! ks0) eqn:E; cbn; [auto|].
        right; right; left. eauto. }
    assert (ohlcv_update (Obj props) ks0 kt0 c) as Hup.
    { split; [done|]. split; [by exists symbol|].
      split; [by exists timeframe|done]. }
    rewrite (processIncomingData_ohlcv _ _ _ _ _ Hup).
    right; right; right; left. exists ks0, kt0, c. split; [done|].
    destruct (GetV c (lit "length")) as [len|]; [|done].
    by destruct (ToString len). }
  destruct (is_string ty (lit "symbol_list")) eqn:E3.
  { apply is_string_true in E3 as ->.
    destruct (GetV_type_record _ _ Hty) as [props ->].
    destruct (GetV (Obj props) (lit "symbols")) as [symbols|] eqn:Hsym;
      [|done].
    assert (catalog_update (Obj props) symbols) as Hup by done.
    rewrite (processIncomingData_catalog _ _ _ Hup).
    destruct symbols; auto. right; right; right; right. eauto. }
  unfold processIncomingData. js_unfold. rewrite Hty. cbn iota.
  rewrite E1, E2, E3. auto.
Qed.

Lemma handle_message_store m w :
  let ds := dataStore w in
  let ds' := dataStore (handle_message m w).2 in
  ds' = ds
  \/ exists d w0,
       dataStore w0 = ds /\ ds' = dataStore (processIncomingData d w0).2
       /\ JSON_parse m = Some d.
Proof.
  cbn zeta. destruct (decide (trim m = [])) as [Hm|Hm].
  { unfold handle_message. rewrite bool_decide_true by done. auto. }
  destruct (JSON_parse m) as [d|] eqn:Hd.
  - destruct (handle_message_valid m d w Hm Hd) as [-> _].
    right. by exists d, w.
  - unfold handle_message. rewrite bool_decide_false, Hd by done. auto.
Qed.

(** What holds of the store at the start and is kept by every message
    holds after any lines. *)
Lemma after_lines_invariant (P : DataStore → Prop) lines w :
  P (dataStore w) →
  (forall d w0, P (dataStore w0) → P (dataStore (processIncomingData d w0).2)) →
  P (dataStore (after_lines lines w)).
Proof.
  intros Hw Hstep. revert w Hw.
  induction lines as [|m rest IH]; intros w Hw; [done|].
  rewrite after_lines_cons. apply IH.
  destruct (handle_message_store m w) as [->|(d & w0 & E0 & -> & _)];
    [done|].
  apply Hstep. by rewrite E0.
Qed.

(** ** What the store holds after any lines *)

Lemma after_lines_symbolList lines w :
  (exists l, symbolList (dataStore w) = Arr l) →
  exists l, symbolList (dataStore (after_lines lines w)) = Arr l.
Proof.
  intros Hw.
  apply (after_lines_invariant (fun ds => exists l, symbolList ds = Arr l));
    [done|].
  intros d w0 [l0 Hl0].
  destruct (processIncomingData_store d w0)
    as [->|[(k & _ & ->)|[(ks & _ & ->)|[(ks & kt & c & _ & ->)
       |(l & _ & ->)]]]]; eauto.
Qed.

(** X13: whatever lines came, [symbolList] is an array: the empty one of
    the start or the [symbols] of an accepted catalog; so
    [GET /api/symbols] always answers, with that array and its length. *)
Theorem catalog_is_always_an_array (lines : list jsstring) (w : world) :
  (exists l, symbolList (dataStore w) = Arr l) →
  exists l,
    symbolList (dataStore (after_lines lines w)) = Arr l
    /\ api_symbols (dataStore (after_lines lines w))
       = res_json (Num (Number_ofNat (length l)), Arr l).
Proof.
  intros Hw. destruct (after_lines_symbolList lines w Hw) as [l Hl].
  exists l. split; [done|]. unfold api_symbols. by rewrite Hl.
Qed.


(** X15: the program never deletes: a symbol that has a live price, a
    symbol that has timeframes and a timeframe that has an entry still
    have one after any lines. *)
Theorem nothing_is_ever_removed (lines : list jsstring) (w : world) :
  let ds := dataStore w in
  let ds' := dataStore (after_lines lines w) in
  (forall key, is_Some (livePrices ds !! key) →
               is_Some (livePrices ds' !! key))
  /\ (forall ks, is_Some (ohlcvData ds !! ks) →
                 is_Some (ohlcvData ds' !! ks))
  /\ (forall ks kt, is_Some (series ds ks kt) →
                    is_Some (series ds' ks kt)).
Proof.
  cbn zeta.
  apply (after_lines_invariant
           (fun ds' =>
              (forall key, is_Some (livePrices (dataStore w) !! key) →
                           is_Some (livePrices ds' !! key))
              /\ (forall ks, is_Some (ohlcvData (dataStore w) !! ks) →
                             is_Some (ohlcvData ds' !! ks))
              /\ (forall ks kt, is_Some (series (dataStore w) ks kt) →
                                is_Some (series ds' ks kt))));
    [done|].
  intros d w0 (IH1 & IH2 & IH3).
  destruct (processIncomingData_store d w0)
    as [->|[(k0 & _ & ->)|[(ks0 & Hnone & ->)|[(ks0 & kt0 & c & _ & ->)
       |(l & _ & ->)]]]]; try done.
  - split; [|done]. intros key Hk. cbn [assign_livePrice livePrices].
    rewrite lookup_insert. case_decide; [done | by apply IH1].
  - split; [done|]. split.
    + intros ks Hk. cbn [assign_symbol ohlcvData]. rewrite lookup_insert.
      case_decide; [done | by apply IH2].
    + intros ks kt Hk. rewrite series_assign_symbol.
      case_decide as E; [|by apply IH3]. subst ks0.
      apply IH3 in Hk. unfold series in Hk. rewrite Hnone in Hk.
      by destruct Hk.
  - split; [done|]. split.
    + intros ks Hk. cbn [assign_symbol ohlcvData]. rewrite lookup_insert.
      case_decide; [done | by apply IH2].
    + intros ks kt Hk. rewrite series_assign_entry.
      case_decide; [done | by apply IH3].
Qed.

(** ** Ingestion followed by a read *)

(** X16: an accepted live price is served at once to every request whose
    symbol has the key of the message as upper-case form, and changes the
    answer for no other key; the candles and the catalog are not touched. *)
Theorem live_price_is_served (w : world) (d : jsvalue) (key s : jsstring) :
  live_price_update d key → toUpperCase s = key →
  let ds := dataStore w in
  let ds' := dataStore (processIncomingData d w).2 in
  api_price s ds' = res_json (stamp d (toISOString (clock w)))
  /\ (forall s', toUpperCase s' ≠ key → api_price s' ds' = api_price s' ds)
  /\ ohlcvData ds' = ohlcvData ds
  /\ symbolList ds' = symbolList ds.
Proof.
  intros Hd Hs. cbn zeta.
  rewrite (processIncomingData_live_price _ _ _ Hd). cbn [snd dataStore].
  split; [|split; [|done]].
  - unfold api_price. rewrite Hs. cbn [assign_livePrice livePrices].
    rewrite lookup_insert_eq. destruct Hd as [Hty _].
    by destruct (GetV_type_record _ _ Hty) as [props ->].
  - intros s' Hs'. unfold api_price. cbn [assign_livePrice livePrices].
    by rewrite lookup_insert_ne.
Qed.

(** X17: [GET /api/prices] counts keys, not messages, and holds every
    price under the key it came with, whatever its case: after clean
    lines, an accepted live price whose key is not [__proto__] adds one
    to the count when its key is new and leaves the count when it
    replaces a price. *)
Theorem api_prices_counts_keys (lines : list jsstring) (d : jsvalue)
    (key : jsstring) :
  clean lines = true →
  live_price_update d key → key ≠ lit "__proto__" →
  let w := after_lines lines initial_world in
  let prices := livePrices (dataStore w) in
  api_prices (dataStore (processIncomingData d w).2)
  = res_json
      ((if prices !! key is Some _ then size prices else S (size prices)),
       <[key := stamp d (toISOString (clock w))]> prices).
Proof.
  intros _ Hd _ w. clearbody w. cbn zeta.
  rewrite (processIncomingData_live_price _ _ _ Hd).
  unfold api_prices. cbn [snd dataStore assign_livePrice livePrices].
  rewrite map_size_insert.
  by destruct (livePrices (dataStore w) !! key).
Qed.

(** X18: without a [limit], or with one that is not a number or is zero,
    [GET /api/ohlcv] answers as with [limit=100]: at most the last hundred
    candles of a stored sequence. *)
Theorem api_ohlcv_default_limit (ds : DataStore)
    (symbol timeframe : jsstring) (limit_query : option jsstring)
    (cs : list jsvalue) :
  parseInt limit_query = None \/ parseInt limit_query = Some 0%Z →
  api_ohlcv symbol timeframe limit_query ds
  = api_ohlcv symbol timeframe (Some (lit "100")) ds
  /\ (series ds (toUpperCase symbol) timeframe = Some (Arr cs) →
      api_ohlcv symbol timeframe limit_query ds
      = res_json (mkOhlcvBody (toUpperCase symbol) timeframe
                    (Nat.min 100 (length cs))
                    (Arr (drop (length cs - 100) cs)))).
Proof.
  intros Hq.
  assert (api_ohlcv symbol timeframe limit_query ds
          = api_ohlcv symbol timeframe (Some (lit "100")) ds) as E.
  { unfold api_ohlcv.
    change (parseInt (Some (lit "100"))) with (Some 100%Z).
    by destruct Hq as [-> | ->]. }
  split; [done|]. intros Hs. rewrite E.
  by rewrite (api_ohlcv_limit ds symbol timeframe _ 100 cs).
Qed.

(** X19: a negative [limit] is not refused: [limit=-k] makes
    [GET /api/ohlcv] answer with the stored sequence without its first k
    candles, nothing when it has k or fewer. *)
Theorem api_ohlcv_negative_limit (ds : DataStore)
    (symbol timeframe : jsstring) (limit_query : option jsstring) (L : Z)
    (cs : list jsvalue) :
  series ds (toUpperCase symbol) timeframe = Some (Arr cs) →
  parseInt limit_query = Some L → (L < 0)%Z →
  api_ohlcv symbol timeframe limit_query ds
  = res_json (mkOhlcvBody (toUpperCase symbol) timeframe
                (length cs - Z.to_nat (- L))
                (Arr (drop (Z.to_nat (- L)) cs))).
Proof.
  intros Hs Hq HL. unfold api_ohlcv. rewrite Hq.
  destruct (Z.eqb_spec L 0); [lia|].
  unfold series in Hs.
  destruct (ohlcvData ds !! toUpperCase symbol) as [tfs|]; [|done].
  simpl in Hs. rewrite Hs. cbn [default id ToBoolean negb slice].
  assert (slice_start (length cs) (- L)
          = Nat.min (Z.to_nat (- L)) (length cs)) as ->.
  { unfold slice_start. destruct (Z.ltb_spec (- L) 0); lia. }
  rewrite length_drop.
  destruct (decide (Z.to_nat (- L) <= length cs)%nat) as [Hle|Hgt].
  - by rewrite Nat.min_l by done.
  - rewrite Nat.min_r by lia. rewrite !drop_ge by lia.
    do 2 f_equal. lia.
Qed.

(** X20: after clean lines, an accepted batch with an empty array of
    candles, for a symbol that is no inherited name and a timeframe other
    than [__proto__], is stored and found: [GET /api/ohlcv] answers it
    with a count of zero, whatever the limit. *)
Theorem empty_batch_is_found (lines : list jsstring) (d : jsvalue)
    (ks kt s : jsstring) (limit_query : option jsstring) :
  clean lines = true →
  ohlcv_update d ks kt (Arr []) →
  ks ∉ inherited_names → kt ≠ lit "__proto__" →
  toUpperCase s = ks →
  let w := after_lines lines initial_world in
  api_ohlcv s kt limit_query (dataStore (processIncomingData d w).2)
  = res_json (mkOhlcvBody ks kt 0 (Arr [])).
Proof.
  intros _ Hd _ _ Hs w. clearbody w.
  rewrite (processIncomingData_ohlcv _ _ _ _ _ Hd).
  cbn [GetV]. rewrite decide_True by done. cbn [ToString snd dataStore].
  unfold api_ohlcv. rewrite Hs.
  cbn [assign_symbol ohlcvData]. rewrite !lookup_insert_eq.
  cbn [default id ToBoolean negb slice]. by rewrite drop_nil.
Qed.

(** X21: what a batch held as [candles] is stored unchecked, so a number,
    [true] or a record there is stored like a sequence: after clean
    lines, and for a symbol that is no inherited name and a timeframe
    other than [__proto__], it is the entry; it has no [slice], and
    [GET /api/ohlcv] for that entry fails with a 500. *)
Theorem candles_that_are_no_sequence (lines : list jsstring)
    (d c : jsvalue) (ks kt s : jsstring)
    (limit_query : option jsstring) :
  clean lines = true →
  ohlcv_update d ks kt c →
  ks ∉ inherited_names → kt ≠ lit "__proto__" →
  toUpperCase s = ks →
  ToBoolean c = true → (forall l, c ≠ Arr l) → (forall t, c ≠ Str t) →
  let w := after_lines lines initial_world in
  api_ohlcv s kt limit_query (dataStore (processIncomingData d w).2)
  = res_500.
Proof.
  intros _ Hd _ _ Hs Hc Harr Hstr w. clearbody w.
  assert (series (dataStore (processIncomingData d w).2) ks kt = Some c)
    as Hser.
  { rewrite (processIncomingData_ohlcv _ _ _ _ _ Hd).
    destruct (GetV c (lit "length")) as [len|];
      [destruct (ToString len)|]; cbn [snd dataStore];
      by rewrite series_assign_entry, decide_True. }
  unfold api_ohlcv. rewrite Hs. unfold series in Hser.
  destruct (ohlcvData _ !! ks) as [tfs|]; [|done].
  simpl in Hser. rewrite Hser. cbn [default id]. rewrite Hc. cbn [negb].
  destruct c; try done; [by destruct (Hstr s0) | by destruct (Harr elements)].
Qed.

(** X22: after clean lines, once a batch came with a symbol that is no
    inherited name and a timeframe other than [__proto__], the timeframe
    is listed by [GET /api/timeframes] beside those the symbol had, even
    when the batch had no [candles] and was reported as an error. *)
Theorem timeframe_is_listed (lines : list jsstring) (d c : jsvalue)
    (ks kt s : jsstring) :
  clean lines = true →
  ohlcv_update d ks kt c →
  ks ∉ inherited_names → kt ≠ lit "__proto__" →
  toUpperCase s = ks →
  let w := after_lines lines initial_world in
  let before := default ∅ (ohlcvData (dataStore w) !! ks) in
  api_timeframes s (dataStore (processIncomingData d w).2)
  = res_json (ks, {[kt]} ∪ dom before).
Proof.
  intros _ Hd _ _ Hs w. clearbody w. intros before.
  assert (ohlcvData (dataStore (processIncomingData d w).2) !! ks
          = Some (<[kt := c]> before)) as E.
  { rewrite (processIncomingData_ohlcv _ _ _ _ _ Hd).
    destruct (GetV c (lit "length")) as [len|];
      [destruct (ToString len)|];
      cbn [snd dataStore assign_symbol ohlcvData];
      by rewrite lookup_insert_eq. }
  unfold api_timeframes. rewrite Hs, E. by rewrite dom_insert_L.
Qed.

(** ** The handlers that do not read candles or prices *)


(** X24: [POST /api/request-ohlcv] records nothing and asks nothing of
    the terminal: after clean lines, whatever the body, the store and
    the clock are as they were.  Without a symbol or a timeframe the
    answer is a 400 and the console is not written; an accepted request
    is answered with the bars asked for, or 100 when the body had
    none. *)
Theorem request_ohlcv_records_nothing (lines : list jsstring)
    (body : jsvalue) :
  clean lines = true →
  let w := after_lines lines initial_world in
  exists r entries,
    api_request_ohlcv body w
    = (Normal r, mkWorld (dataStore w) (console w ++ entries) (clock w))
    /\ (forall symbol timeframe,
          GetV body (lit "symbol") = Normal symbol →
          GetV body (lit "timeframe") = Normal timeframe →
          ToBoolean symbol = false \/ ToBoolean timeframe = false →
          r = res_400 (lit "Symbol and timeframe are required")
          /\ entries = [])
    /\ (forall answer bars,
          r = requested answer →
          GetV body (lit "bars") = Normal bars →
          requestedBars answer
          = if ToBoolean bars then bars else Num (Number_ofNat 100)).
Proof.
  intros _ w. clearbody w.
  assert (mkWorld (dataStore w) (console w ++ []) (clock w) = w) as Ew
    by (rewrite app_nil_r; by destruct w).
  unfold api_request_ohlcv. js_unfold.
  destruct (GetV body (lit "symbol")) as [symbol|] eqn:Hsym.
  2:{ exists request_failed, []. rewrite Ew.
      split; [done|]. split; intros; discriminate. }
  destruct (GetV body (lit "timeframe")) as [timeframe|] eqn:Htf.
  2:{ destruct body; discriminate. }
  destruct (GetV body (lit "bars")) as [bars|] eqn:Hbars.
  2:{ destruct body; discriminate. }
  destruct (ToBoolean symbol) eqn:Hs; cbn [negb orb].
  2:{ exists (res_400 (lit "Symbol and timeframe are required")), [].
      rewrite Ew. split; [done|].
      split; [intros; split; reflexivity | intros; discriminate]. }
  destruct (ToBoolean timeframe) eqn:Ht; cbn [negb orb].
  2:{ exists (res_400 (lit "Symbol and timeframe are required")), [].
      rewrite Ew. split; [done|].
      split; [intros; split; reflexivity | intros; discriminate]. }
  assert (forall (P : Prop) (a b : jsvalue),
            Normal symbol = Normal a → Normal timeframe = Normal b →
            ToBoolean a = false \/ ToBoolean b = false → P) as Hno.
  { intros P a b [= <-] [= <-] [?|?]; congruence. }
  destruct (ToString symbol) as [s|] eqn:Hks.
  2:{ exists request_failed, []. rewrite Ew.
      split; [done|].
      split; [intros a0 b0 E1 E2 Hor; by apply (Hno _ a0 b0)
             | intros; discriminate]. }
  destruct (ToString timeframe) as [t|] eqn:Hkt.
  2:{ exists request_failed, []. rewrite Ew.
      split; [done|].
      split; [intros a0 b0 E1 E2 Hor; by apply (Hno _ a0 b0)
             | intros; discriminate]. }
  destruct (ToString (bars_or_default bars)) as [b|] eqn:Hb.
  2:{ exists request_failed, []. rewrite Ew.
      split; [done|].
      split; [intros a0 b0 E1 E2 Hor; by apply (Hno _ a0 b0)
             | intros; discriminate]. }
  eexists _, [_]. split; [reflexivity|].
  split; [intros a0 b0 E1 E2 Hor; by apply (Hno _ a0 b0)|].
  by intros answer bars' [= <-] [= <-].
Qed.

End Further.

(** ** The further theorems at concrete inputs *)

Section FurtherRuns.

Import Sample.

Ltac by_computation := apply (bool_decide_unpack _); vm_compute; exact I.

Lemma chunk_without_newline_witness :
  let data := bytes "{'type':'live_price','sym" in
  (LF ∉ @nil N) /\ (LF ∉ Buffer_toString data)
  /\ on_data data (Some []) initial_world
     = (Normal (Some ([] ++ Buffer_toString data)), initial_world).
Proof.
  cbn zeta.
  assert (LF ∉ @nil N) as Hb by apply not_elem_of_nil.
  assert (LF ∉ Buffer_toString (bytes "{'type':'live_price','sym")) as Hd
    by by_computation.
  split; [exact Hb|]. split; [exact Hd|].
  exact (chunk_without_newline_is_buffered [] _ initial_world Hb Hd).
Defined.

Lemma data_events_witness :
  let chunks :=
    [bytes "{'type':'symbol_list',";
     bytes "'symbols':['EURUSD']}" ++ [x0a] ++ bytes "{'ty"] in
  (LF ∉ @nil N)
  /\ on_data_all chunks (Some []) initial_world
     = (Normal (Some (line "{'ty")),
        after_lines [line "{'type':'symbol_list','symbols':['EURUSD']}"]
          initial_world).
Proof.
  cbn zeta.
  assert (LF ∉ @nil N) as Hb by apply not_elem_of_nil.
  split; [exact Hb|].
  rewrite (data_events_are_the_lines_of_the_text [] _ initial_world Hb).
  vm_compute. reflexivity.
Defined.

Lemma ascii_chunking_witness :
  let stream :=
    bytes "{'type':'symbol_list','symbols':['EURUSD']}" ++ [x0a] in
  let chunks1 := [take 7 stream; drop 7 stream] in
  let chunks2 := [take 30 stream; drop 30 (take 44 stream); drop 44 stream] in
  is_ascii (concat chunks1) /\ concat chunks1 = concat chunks2
  /\ on_data_all chunks1 (Some []) initial_world
     = on_data_all chunks2 (Some []) initial_world.
Proof.
  cbn zeta.
  assert (is_ascii
            (concat
               [take 7 (bytes "{'type':'symbol_list','symbols':['EURUSD']}"
                          ++ [x0a]);
                drop 7 (bytes "{'type':'symbol_list','symbols':['EURUSD']}"
                          ++ [x0a])])) as Ha
    by (vm_compute; repeat constructor).
  split; [exact Ha|]. split; [vm_compute; reflexivity|].
  apply (ascii_chunking_is_invisible _ _ initial_world Ha).
  vm_compute. reflexivity.
Defined.

Lemma unterminated_text_witness :
  let events :=
    [data_event (bytes "{'type':'symbol_list','symbols':['EURUSD']}");
     end_event] in
  (LF ∉ @nil N)
  /\ dataStore (on_events events (Some []) initial_world).2 = empty_store.
Proof.
  cbn zeta.
  assert (LF ∉ @nil N) as Hb by apply not_elem_of_nil.
  split; [exact Hb|].
  destruct (unterminated_text_is_never_applied
              [data_event
                 (bytes "{'type':'symbol_list','symbols':['EURUSD']}");
               end_event] [] initial_world Hb) as [_ Hn].
  apply Hn. by_computation.
Defined.

Lemma unknown_type_witness :
  let lines := [line "{'type':'live_price','symbol':'EURUSD','bid':1.1}"] in
  let d := message "{'type':'tick','symbol':'EURUSD'}" in
  let ty : json := Str (lit "tick") in
  let w := after_lines lines initial_world in
  clean lines = true
  /\ GetV d (lit "type") = Normal ty
  /\ ty ≠ Str (lit "live_price") /\ ty ≠ Str (lit "ohlcv")
  /\ ty ≠ Str (lit "symbol_list")
  /\ dataStore (processIncomingData d w).2 = dataStore w.
Proof.
  cbn zeta.
  assert (clean [line "{'type':'live_price','symbol':'EURUSD','bid':1.1}"] = true) as Hc by (vm_compute; reflexivity).
  assert (forall s, lit "tick" ≠ lit s → @Str decimal (lit "tick") ≠ Str (lit s))
    as Hne by (intros s Hs [= E]; by apply Hs).
  assert (@Str decimal (lit "tick") ≠ Str (lit "live_price")) as H1
    by (apply Hne; vm_compute; discriminate).
  assert (@Str decimal (lit "tick") ≠ Str (lit "ohlcv")) as H2
    by (apply Hne; vm_compute; discriminate).
  assert (@Str decimal (lit "tick") ≠ Str (lit "symbol_list")) as H3
    by (apply Hne; vm_compute; discriminate).
  split; [exact Hc|]. split; [reflexivity|]. split; [exact H1|].
  split; [exact H2|]. split; [exact H3|].
  pose proof (unknown_type_is_only_logged _
                (message "{'type':'tick','symbol':'EURUSD'}") _
                Hc eq_refl H1 H2 H3) as E.
  cbn zeta in E. by rewrite E.
Defined.

Lemma null_line_witness :
  trim (lit "null") ≠ [] /\ JSON_parse (lit "null") = Some Null
  /\ dataStore (handle_message (lit "null") initial_world).2 = empty_store.
Proof.
  assert (trim (lit "null") ≠ []) as Hm by (vm_compute; discriminate).
  assert (JSON_parse (lit "null") = Some Null) as Hd
    by (vm_compute; reflexivity).
  split; [exact Hm|]. split; [exact Hd|].
  by rewrite (null_line_is_caught (lit "null") initial_world Hm Hd).
Defined.

Lemma live_price_without_symbol_witness :
  let lines := [line "{'type':'live_price','symbol':'EURUSD','bid':1.1}"] in
  let d := message "{'type':'live_price','symbol':'','bid':1}" in
  let w := after_lines lines initial_world in
  clean lines = true
  /\ GetV d (lit "type") = Normal (Str (lit "live_price"))
  /\ GetV d (lit "symbol") = Normal (Str []) /\ ToBoolean (@Str decimal []) = false
  /\ dataStore (processIncomingData d w).2 = dataStore w.
Proof.
  cbn zeta.
  assert (clean [line "{'type':'live_price','symbol':'EURUSD','bid':1.1}"] = true) as Hc by (vm_compute; reflexivity).
  split; [exact Hc|]. split; [reflexivity|]. split; [reflexivity|].
  split; [reflexivity|].
  pose proof (live_price_without_symbol_is_refused _
                (message "{'type':'live_price','symbol':'','bid':1}") (Str [])
                Hc eq_refl eq_refl eq_refl) as E.
  cbn zeta in E. by rewrite E.
Defined.

Lemma ohlcv_without_keys_witness :
  let lines := [line "{'type':'live_price','symbol':'EURUSD','bid':1.1}"] in
  let d := message "{'type':'ohlcv','symbol':'EURUSD','candles':[1]}" in
  let w := after_lines lines initial_world in
  clean lines = true
  /\ GetV d (lit "type") = Normal (Str (lit "ohlcv"))
  /\ GetV d (lit "symbol") = Normal (Str EURUSD)
  /\ GetV d (lit "timeframe") = Normal Undefined
  /\ (ToBoolean (@Str decimal EURUSD) = false
      \/ ToBoolean (@Undefined decimal) = false)
  /\ dataStore (processIncomingData d w).2 = dataStore w.
Proof.
  cbn zeta.
  assert (clean [line "{'type':'live_price','symbol':'EURUSD','bid':1.1}"] = true) as Hc by (vm_compute; reflexivity).
  split; [exact Hc|]. split; [reflexivity|]. split; [reflexivity|].
  split; [reflexivity|]. split; [right; reflexivity|].
  pose proof (ohlcv_without_keys_is_refused _
                (message "{'type':'ohlcv','symbol':'EURUSD','candles':[1]}")
                (Str EURUSD) Undefined Hc eq_refl eq_refl eq_refl
                (or_intror eq_refl)) as E.
  cbn zeta in E. by rewrite E.
Defined.

Lemma ohlcv_with_unusable_timeframe_witness :
  let lines := [line "{'type':'live_price','symbol':'EURUSD','bid':1.1}"] in
  let d :=
    message "{'type':'ohlcv','symbol':'GBPUSD','timeframe':{'toString':1},'candles':[1]}" in
  let timeframe := message "{'toString':1}" in
  let w := after_lines lines initial_world in
  clean lines = true
  /\ GetV d (lit "type") = Normal (Str (lit "ohlcv"))
  /\ GetV d (lit "symbol") = Normal (Str (lit "GBPUSD"))
  /\ ToBoolean (@Str decimal (lit "GBPUSD")) = true
  /\ ToPropertyKey (@Str decimal (lit "GBPUSD")) = Normal (lit "GBPUSD")
  /\ (lit "GBPUSD" ∉ inherited_names)
  /\ GetV d (lit "timeframe") = Normal timeframe
  /\ ToBoolean timeframe = true
  /\ ToPropertyKey timeframe = Throw TypeError
  /\ api_timeframes (lit "GBPUSD") (dataStore w)
     = res_404 (lit "No data available for GBPUSD")
  /\ api_timeframes (lit "GBPUSD") (dataStore (processIncomingData d w).2)
     = res_json (lit "GBPUSD", ∅).
Proof.
  cbn zeta.
  assert (clean [line "{'type':'live_price','symbol':'EURUSD','bid':1.1}"] = true) as Hc by (vm_compute; reflexivity).
  assert (lit "GBPUSD" ∉ inherited_names) as Hk by by_computation.
  split; [exact Hc|]. repeat (split; [reflexivity|]).
  split; [exact Hk|]. repeat (split; [reflexivity|]).
  destruct (ohlcv_with_unusable_timeframe _
              (message "{'type':'ohlcv','symbol':'GBPUSD','timeframe':{'toString':1},'candles':[1]}")
              (Str (lit "GBPUSD")) (message "{'toString':1}")
              (lit "GBPUSD") TypeError
              Hc eq_refl eq_refl eq_refl eq_refl Hk eq_refl eq_refl eq_refl)
    as [E Ht].
  rewrite E. cbn [snd dataStore].
  apply Ht; vm_compute; reflexivity.
Defined.

Lemma catalog_is_always_an_array_witness :
  let lines :=
    [line "{'type':'symbol_list','symbols':['EURUSD','GBPUSD']}";
     line "{'type':'symbol_list','symbols':5}"] in
  (exists l : list json, symbolList (dataStore initial_world) = Arr l)
  /\ api_symbols (dataStore (after_lines lines initial_world))
     = res_json (message "2", message "['EURUSD','GBPUSD']").
Proof.
  cbn zeta.
  assert (exists l : list json, symbolList (dataStore initial_world) = Arr l)
    as Hw by (by exists []).
  split; [exact Hw|].
  destruct (catalog_is_always_an_array
              [line "{'type':'symbol_list','symbols':['EURUSD','GBPUSD']}";
               line "{'type':'symbol_list','symbols':5}"]
              initial_world Hw) as (l & Hl & Ha).
  rewrite Ha. vm_compute in Hl. injection Hl as <-. reflexivity.
Defined.


Lemma eurusd_update :
  live_price_update
    (message "{'type':'live_price','symbol':'EURUSD','bid':1.1}") EURUSD.
Proof.
  split; [vm_compute; reflexivity|].
  exists (Str EURUSD). repeat split; vm_compute; reflexivity.
Defined.

Lemma live_price_is_served_witness :
  let d := message "{'type':'live_price','symbol':'EURUSD','bid':1.1}" in
  live_price_update d EURUSD /\ toUpperCase (lit "eurusd") = EURUSD
  /\ api_price (lit "eurusd")
       (dataStore (processIncomingData d initial_world).2)
     = res_json (stamp d (toISOString 0)).
Proof.
  cbn zeta.
  assert (toUpperCase (lit "eurusd") = EURUSD) as Hs
    by (vm_compute; reflexivity).
  split; [exact eurusd_update|]. split; [exact Hs|].
  apply (live_price_is_served initial_world _ _ _ eurusd_update Hs).
Defined.

Lemma api_prices_counts_keys_witness :
  let lines := [line "{'type':'live_price','symbol':'EURUSD','bid':1.1}"] in
  let d := message "{'type':'live_price','symbol':'EURUSD','bid':1.1}" in
  let w := after_lines lines initial_world in
  clean lines = true
  /\ live_price_update d EURUSD /\ EURUSD ≠ lit "__proto__"
  /\ api_prices (dataStore (processIncomingData d w).2)
     = res_json (1%nat, {[ EURUSD := stamp d (toISOString 1) ]}).
Proof.
  cbn zeta.
  assert (clean [line "{'type':'live_price','symbol':'EURUSD','bid':1.1}"] = true) as Hc by (vm_compute; reflexivity).
  assert (EURUSD ≠ lit "__proto__") as Hk by (vm_compute; discriminate).
  split; [exact Hc|]. split; [exact eurusd_update|]. split; [exact Hk|].
  pose proof (api_prices_counts_keys _ _ _ Hc eurusd_update Hk) as E.
  cbn zeta in E. etrans; [exact E|]. vm_compute. reflexivity.
Defined.

Lemma seven_candles :
  series
    (dataStore
       (processIncomingData
          (message "{'type':'ohlcv','symbol':'EURUSD','timeframe':'M1','candles':[1,2,3,4,5,6,7]}")
          initial_world).2)
    (toUpperCase (lit "eurusd")) M1
  = Some (Arr [message "1"; message "2"; message "3"; message "4";
               message "5"; message "6"; message "7"]).
Proof. vm_compute. reflexivity. Defined.

Lemma api_ohlcv_default_limit_witness :
  let batch :=
    message "{'type':'ohlcv','symbol':'EURUSD','timeframe':'M1','candles':[1,2,3,4,5,6,7]}" in
  let ds := dataStore (processIncomingData batch initial_world).2 in
  (parseInt (Some (lit "all")) = None
   \/ parseInt (Some (lit "all")) = Some 0%Z)
  /\ api_ohlcv (lit "eurusd") M1 (Some (lit "all")) ds
     = api_ohlcv (lit "eurusd") M1 (Some (lit "100")) ds.
Proof.
  cbn zeta.
  assert (parseInt (Some (lit "all")) = None
          \/ parseInt (Some (lit "all")) = Some 0%Z) as Hq
    by (left; vm_compute; reflexivity).
  split; [exact Hq|].
  apply (api_ohlcv_default_limit _ (lit "eurusd") M1 (Some (lit "all")) []
           Hq).
Defined.

Lemma api_ohlcv_negative_limit_witness :
  let batch :=
    message "{'type':'ohlcv','symbol':'EURUSD','timeframe':'M1','candles':[1,2,3,4,5,6,7]}" in
  let ds := dataStore (processIncomingData batch initial_world).2 in
  parseInt (Some (lit "-2")) = Some (-2)%Z /\ (-2 < 0)%Z
  /\ api_ohlcv (lit "eurusd") M1 (Some (lit "-2")) ds
     = res_json (mkOhlcvBody EURUSD M1 5
                   (Arr [message "3"; message "4"; message "5";
                         message "6"; message "7"])).
Proof.
  cbn zeta.
  assert (parseInt (Some (lit "-2")) = Some (-2)%Z) as Hq
    by (vm_compute; reflexivity).
  assert (-2 < 0)%Z as HL by lia.
  split; [exact Hq|]. split; [exact HL|].
  exact (api_ohlcv_negative_limit _ (lit "eurusd") M1 (Some (lit "-2"))
           (-2) _ seven_candles Hq HL).
Defined.

Lemma batch_update (candles : string) :
  GetV (message candles) (lit "type") = Normal (Str (lit "ohlcv")) →
  GetV (message candles) (lit "symbol") = Normal (Str EURUSD) →
  GetV (message candles) (lit "timeframe") = Normal (Str M1) →
  forall c, GetV (message candles) (lit "candles") = Normal c →
  ohlcv_update (message candles) EURUSD M1 c.
Proof.
  intros Hty Hsym Htf c Hc. split; [exact Hty|]. split; [|split].
  - exists (Str EURUSD). repeat split; [exact Hsym | vm_compute; reflexivity..].
  - exists (Str M1). repeat split; [exact Htf | vm_compute; reflexivity..].
  - exact Hc.
Defined.

Lemma empty_batch_is_found_witness :
  let lines := [line "{'type':'ohlcv','symbol':'EURUSD','timeframe':'M5','candles':[1]}"] in
  let d :=
    message "{'type':'ohlcv','symbol':'EURUSD','timeframe':'M1','candles':[]}" in
  let w := after_lines lines initial_world in
  clean lines = true
  /\ ohlcv_update d EURUSD M1 (Arr [])
  /\ (EURUSD ∉ inherited_names) /\ M1 ≠ lit "__proto__"
  /\ toUpperCase (lit "eurusd") = EURUSD
  /\ api_ohlcv (lit "eurusd") M1 (Some (lit "5"))
       (dataStore (processIncomingData d w).2)
     = res_json (mkOhlcvBody EURUSD M1 0 (Arr [])).
Proof.
  cbn zeta.
  assert (clean [line "{'type':'ohlcv','symbol':'EURUSD','timeframe':'M5','candles':[1]}"] = true) as Hc by (vm_compute; reflexivity).
  pose proof (batch_update
                "{'type':'ohlcv','symbol':'EURUSD','timeframe':'M1','candles':[]}"
                eq_refl eq_refl eq_refl (Arr []) eq_refl) as Hd.
  assert (EURUSD ∉ inherited_names) as Hks by by_computation.
  assert (M1 ≠ lit "__proto__") as Hkt by (vm_compute; discriminate).
  assert (toUpperCase (lit "eurusd") = EURUSD) as Hs
    by (vm_compute; reflexivity).
  split; [exact Hc|]. split; [exact Hd|]. split; [exact Hks|].
  split; [exact Hkt|]. split; [exact Hs|].
  exact (empty_batch_is_found _ _ _ _ _ (Some (lit "5")) Hc Hd Hks Hkt Hs).
Defined.

Lemma candles_that_are_no_sequence_witness :
  let lines := [line "{'type':'ohlcv','symbol':'EURUSD','timeframe':'M5','candles':[1]}"] in
  let d :=
    message "{'type':'ohlcv','symbol':'EURUSD','timeframe':'M1','candles':5}" in
  let c := message "5" in
  let w := after_lines lines initial_world in
  clean lines = true
  /\ ohlcv_update d EURUSD M1 c
  /\ (EURUSD ∉ inherited_names) /\ M1 ≠ lit "__proto__"
  /\ toUpperCase (lit "eurusd") = EURUSD
  /\ ToBoolean c = true /\ (forall l, c ≠ Arr l) /\ (forall t, c ≠ Str t)
  /\ api_ohlcv (lit "eurusd") M1 None
       (dataStore (processIncomingData d w).2)
     = res_500.
Proof.
  cbn zeta.
  assert (clean [line "{'type':'ohlcv','symbol':'EURUSD','timeframe':'M5','candles':[1]}"] = true) as Hcl by (vm_compute; reflexivity).
  pose proof (batch_update
                "{'type':'ohlcv','symbol':'EURUSD','timeframe':'M1','candles':5}"
                eq_refl eq_refl eq_refl (message "5") eq_refl) as Hd.
  assert (EURUSD ∉ inherited_names) as Hks by by_computation.
  assert (M1 ≠ lit "__proto__") as Hkt by (vm_compute; discriminate).
  assert (toUpperCase (lit "eurusd") = EURUSD) as Hs
    by (vm_compute; reflexivity).
  assert (ToBoolean (message "5") = true) as Hc by (vm_compute; reflexivity).
  assert (forall l, message "5" ≠ Arr l) as Ha
    by (intros l; vm_compute; discriminate).
  assert (forall t, message "5" ≠ Str t) as Ht
    by (intros t; vm_compute; discriminate).
  split; [exact Hcl|]. split; [exact Hd|]. split; [exact Hks|].
  split; [exact Hkt|]. split; [exact Hs|]. split; [exact Hc|].
  split; [exact Ha|]. split; [exact Ht|].
  exact (candles_that_are_no_sequence _ _ _ _ _ _ None
           Hcl Hd Hks Hkt Hs Hc Ha Ht).
Defined.

Lemma timeframe_is_listed_witness :
  let lines := [line "{'type':'ohlcv','symbol':'EURUSD','timeframe':'M5','candles':[1]}"] in
  let d := message "{'type':'ohlcv','symbol':'EURUSD','timeframe':'M1'}" in
  let w := after_lines lines initial_world in
  clean lines = true
  /\ ohlcv_update d EURUSD M1 Undefined
  /\ (EURUSD ∉ inherited_names) /\ M1 ≠ lit "__proto__"
  /\ toUpperCase (lit "eurusd") = EURUSD
  /\ api_timeframes (lit "eurusd") (dataStore w)
     = res_json (EURUSD, {[ lit "M5" ]})
  /\ api_timeframes (lit "eurusd") (dataStore (processIncomingData d w).2)
     = res_json (EURUSD, {[ M1; lit "M5" ]}).
Proof.
  cbn zeta.
  assert (clean [line "{'type':'ohlcv','symbol':'EURUSD','timeframe':'M5','candles':[1]}"] = true) as Hc by (vm_compute; reflexivity).
  pose proof (batch_update
                "{'type':'ohlcv','symbol':'EURUSD','timeframe':'M1'}"
                eq_refl eq_refl eq_refl Undefined eq_refl) as Hd.
  assert (EURUSD ∉ inherited_names) as Hks by by_computation.
  assert (M1 ≠ lit "__proto__") as Hkt by (vm_compute; discriminate).
  assert (toUpperCase (lit "eurusd") = EURUSD) as Hs
    by (vm_compute; reflexivity).
  split; [exact Hc|]. split; [exact Hd|]. split; [exact Hks|].
  split; [exact Hkt|]. split; [exact Hs|].
  split; [vm_compute; reflexivity|].
  pose proof (timeframe_is_listed _ _ _ _ _ _ Hc Hd Hks Hkt Hs) as E.
  cbn zeta in E. etrans; [exact E|]. vm_compute. reflexivity.
Defined.

Lemma request_ohlcv_witness :
  let lines := [line "{'type':'live_price','symbol':'EURUSD','bid':1.1}"] in
  let body := message "{'symbol':'EURUSD','bars':50}" in
  let w := after_lines lines initial_world in
  clean lines = true
  /\ api_request_ohlcv body w
     = (Normal (res_400 (lit "Symbol and timeframe are required")), w).
Proof.
  cbn zeta.
  assert (clean [line "{'type':'live_price','symbol':'EURUSD','bid':1.1}"] = true) as Hc by (vm_compute; reflexivity).
  split; [exact Hc|].
  destruct (request_ohlcv_records_nothing _
              (message "{'symbol':'EURUSD','bars':50}") Hc)
    as (r & entries & E & H400 & _).
  destruct (H400 (Str EURUSD) Undefined eq_refl eq_refl
              (or_intror eq_refl)) as [-> ->].
  rewrite E. vm_compute. reflexivity.
Defined.

End FurtherRuns.
